(** * Shaymee WhatsApp bot: the message orchestrator of [whatsapp-bot/index.js]

    A shallow embedding of the [WhatsAppBot] class: the webhook signature
    check, the session [Map], the message normaliser, the call to the AI
    agent, outbound delivery and the periodic session sweep, followed by the
    properties of the orchestrator that the design document states.

    Conventions.
    - A JavaScript string is a [string]: the sequence of its bytes (UTF-8 for
      text, one byte per character for HTTP header values, which Node reads
      as latin1).
    - A [Date] is its time value, an integral number of milliseconds ([Z]).
    - An [async] method is run to completion: one call of
      [handleIncomingMessage] is one uninterrupted turn, as in the webhook
      route, which awaits each message before the next. Turns that overlap,
      as those of two events of the client or of two webhook requests can,
      are treated apart: the method cut at its awaits, and a bot with turns
      in flight.
    - Whatever the outside world answers (the clock, [Math.random], the AI
      agent, the WhatsApp client, the Graph API) comes from an [Env]; every
      property below is stated for all of them.
    - [logger] calls change nothing that is modelled and are kept as no-ops. *)

From Stdlib Require Import ZArith String Ascii List Lia Floats.PrimFloat.
From stdpp Require Import gmap strings list fin_maps pretty.

Set Warnings "-register-all".
Local Open Scope string_scope.
Local Open Scope Z_scope.

(** ** JavaScript values *)

Module JS.

(** The values that flow through the bot: what [JSON.parse] yields, plus
    [undefined]. Numbers are IEEE-754 doubles. *)
Inductive JSValue : Type :=
| JUndefined
| JNull
| JBool (b : bool)
| JNum (f : float)
| JStr (s : string)
| JArr (elements : list JSValue)
| JObj (fields : list (string * JSValue)).

Inductive Exn : Type :=
| TypeError
| RangeError
| Error (message : string).

(** The completion of an evaluation: a value, or a thrown exception (a
    rejected promise, for an awaited call). *)
Inductive Completion (A : Type) : Type :=
| Normal (a : A)
| Throw (e : Exn).
Arguments Normal {A} a.
Arguments Throw {A} e.

Definition is_normal {A} (c : Completion A) : bool :=
  match c with Normal _ => true | Throw _ => false end.

(** ToBoolean *)
Definition truthy (v : JSValue) : bool :=
  match v with
  | JUndefined | JNull => false
  | JBool b => b
  | JNum f => negb (PrimFloat.eqb f PrimFloat.zero || PrimFloat.is_nan f)
  | JStr s => negb (String.eqb s "")
  | JArr _ | JObj _ => true
  end.

(** [a || b] *)
Definition js_or (a b : JSValue) : JSValue := if truthy a then a else b.

Fixpoint assoc (k : string) (fields : list (string * JSValue)) : option JSValue :=
  match fields with
  | [] => None
  | (k', v) :: rest => if String.eqb k k' then Some v else assoc k rest
  end.

(** [v.k] for a property name [k] that no built-in prototype defines (every
    name the bot reads is such a name): a [TypeError] on [undefined] and
    [null], the own property of an object, [undefined] otherwise. *)
Definition get_prop (v : JSValue) (k : string) : Completion JSValue :=
  match v with
  | JUndefined | JNull => Throw TypeError
  | JObj fields => Normal (default JUndefined (assoc k fields))
  | _ => Normal JUndefined
  end.

Definition join (sep : string) (parts : list string) : string :=
  String.concat sep parts.

Section ToString.

(** Number::toString of the engine. *)
Variable Number_toString : float -> string.

(** ToString, as a template literal applies it. *)
Fixpoint ToString (v : JSValue) : string :=
  match v with
  | JUndefined => "undefined"
  | JNull => "null"
  | JBool true => "true"
  | JBool false => "false"
  | JNum f => Number_toString f
  | JStr s => s
  | JArr elements =>
      join "," (List.map (fun x => match x with
                                   | JUndefined | JNull => ""
                                   | _ => ToString x
                                   end) elements)
  | JObj _ => "[object Object]"
  end.

(** ToString as the engine runs it, on any value: an object is converted
    by its [toString], and one that has a [toString] of its own, which is
    data and no function, has no primitive value: a [TypeError]. An array
    converts its elements one by one and throws where one of them does. *)
Fixpoint ToString_or_throw (v : JSValue) : Completion string :=
  match v with
  | JUndefined => Normal "undefined"
  | JNull => Normal "null"
  | JBool true => Normal "true"
  | JBool false => Normal "false"
  | JNum f => Normal (Number_toString f)
  | JStr s => Normal s
  | JArr elements =>
      match
        (fix each (xs : list JSValue) : Completion (list string) :=
           match xs with
           | [] => Normal []
           | x :: rest =>
               match
                 match x with
                 | JUndefined | JNull => Normal ""
                 | _ => ToString_or_throw x
                 end
               with
               | Throw e => Throw e
               | Normal part =>
                   match each rest with
                   | Throw e => Throw e
                   | Normal parts => Normal (part :: parts)
                   end
               end
           end) elements
      with
      | Normal parts => Normal (join "," parts)
      | Throw e => Throw e
      end
  | JObj fields =>
      match assoc "toString" fields with
      | Some _ => Throw TypeError
      | None => Normal "[object Object]"
      end
  end.

End ToString.

(** [c] and then [k], for completions outside the bot's monad. *)
Definition and_then {A B} (c : Completion A) (k : A -> Completion B) : Completion B :=
  match c with
  | Normal a => k a
  | Throw e => Throw e
  end.

(** [xs.map(f)]: [xs] has to be an array, [f] may throw. *)
Fixpoint map_completion {A B} (f : A -> Completion B) (xs : list A) : Completion (list B) :=
  match xs with
  | [] => Normal []
  | x :: rest =>
      match f x with
      | Throw e => Throw e
      | Normal y =>
          match map_completion f rest with
          | Throw e => Throw e
          | Normal ys => Normal (y :: ys)
          end
      end
  end.

Definition array_map (v : JSValue) (f : JSValue -> Completion JSValue) : Completion JSValue :=
  match v with
  | JArr elements =>
      match map_completion f elements with
      | Normal ys => Normal (JArr ys)
      | Throw e => Throw e
      end
  | _ => Throw TypeError
  end.

End JS.
Export JS.

(** ** Buffers and the [crypto] module *)

Module Crypto.

(** A [Buffer] is its bytes, each in 0..255. *)
Definition Buffer : Type := list Z.

Definition code (c : ascii) : Z := Z.of_N (N_of_ascii c).

(** [Buffer.from(s)]: the UTF-8 encoding of the string. A character below
    U+0080 is one byte, the others of a header value (up to U+00FF) two. *)
Fixpoint Buffer_from (s : string) : Buffer :=
  match s with
  | EmptyString => []
  | String c rest =>
      let u := code c in
      if u <? 128 then u :: Buffer_from rest
      else Z.lor 192 (Z.shiftr u 6) :: Z.lor 128 (Z.land u 63) :: Buffer_from rest
  end.

Fixpoint bytes_eqb (a b : Buffer) : bool :=
  match a, b with
  | [], [] => true
  | x :: a', y :: b' => (x =? y) && bytes_eqb a' b'
  | _, _ => false
  end.

(** [crypto.timingSafeEqual(a, b)]: a [RangeError] when the byte lengths
    differ, else whether the buffers hold the same bytes. *)
Definition timingSafeEqual (a b : Buffer) : Completion bool :=
  if (length a =? length b)%nat then Normal (bytes_eqb a b) else Throw RangeError.

End Crypto.
Export Crypto.

(** ** The bot's state and its environment *)

(** A session object, as [handleIncomingMessage] creates it. *)
Record Session : Type := {
  phone : string;
  conversation_id : string;
  last_activity : Z;
  context : JSValue;
}.

(** An inbound message: the sender and the fields the bot reads. A field
    the provider left out is [JUndefined]. *)
Record Message : Type := {
  from : string;
  type : JSValue;
  body : JSValue;
  caption : JSValue;
  lat : JSValue;
  lng : JSValue;
}.

(** The network calls the bot makes, in the order it makes them. *)
Inductive NetEvent : Type :=
| AgentPost (user_id : string) (message : JSValue) (session_id : string) (context : JSValue)
| ClientSend (to : string) (message : JSValue)
| GraphPost (to : string) (type : string) (payload : JSValue).

(** The fields of the [WhatsAppBot] instance, the record of its network
    calls, and how often the clock and [Math.random] were read. *)
Record World : Type := {
  sessions : gmap string Session;
  isReady : bool;
  network : list NetEvent;
  clock_reads : nat;
  random_draws : nat;
}.

(** The state the constructor leaves. *)
Definition initial : World :=
  {| sessions := ∅; isReady := false; network := []; clock_reads := 0; random_draws := 0 |}.

(** The outside world. The n-th reading of the clock, the n-th draw of
    [Math.random().toString(36)], and the answer to the network call made
    as the n-th of all network calls: the resolved value or the rejection. *)
Record Env : Type := {
  clock : nat -> Z;
  random36 : nat -> string;
  ai_agent : nat -> Completion JSValue;
  whatsapp_client : nat -> Completion JSValue;
  graph_api : nat -> Completion JSValue;
}.

Definition set_sessions (m : gmap string Session) (w : World) : World :=
  {| sessions := m; isReady := isReady w; network := network w;
     clock_reads := clock_reads w; random_draws := random_draws w |}.

Definition set_isReady (b : bool) (w : World) : World :=
  {| sessions := sessions w; isReady := b; network := network w;
     clock_reads := clock_reads w; random_draws := random_draws w |}.

Definition record_call (ev : NetEvent) (w : World) : World :=
  {| sessions := sessions w; isReady := isReady w; network := network w ++ [ev];
     clock_reads := clock_reads w; random_draws := random_draws w |}.

Definition tick_clock (w : World) : World :=
  {| sessions := sessions w; isReady := isReady w; network := network w;
     clock_reads := S (clock_reads w); random_draws := random_draws w |}.

Definition tick_random (w : World) : World :=
  {| sessions := sessions w; isReady := isReady w; network := network w;
     clock_reads := clock_reads w; random_draws := S (random_draws w) |}.

(** ** The monad of the bot's methods: state, exceptions, environment *)

Definition M (A : Type) : Type := Env -> World -> Completion A * World.

Definition ret {A} (a : A) : M A := fun _ w => (Normal a, w).

Definition throw {A} (e : Exn) : M A := fun _ w => (Throw e, w).

Definition bind {A B} (c : M A) (k : A -> M B) : M B :=
  fun env w =>
    match c env w with
    | (Normal a, w') => k a env w'
    | (Throw e, w') => (Throw e, w')
    end.

(** [try { body } catch (error) { handler }] *)
Definition try_catch {A} (body : M A) (handler : Exn -> M A) : M A :=
  fun env w =>
    match body env w with
    | (Normal a, w') => (Normal a, w')
    | (Throw e, w') => handler e env w'
    end.

(** A pure evaluation that may throw. *)
Definition lift {A} (c : Completion A) : M A := fun _ w => (c, w).

Declare Scope bot_scope.
Delimit Scope bot_scope with bot.
Notation "'let*' x ':=' c 'in' k" := (bind c (fun x => k))
  (at level 10, x name, c at level 100, k at level 200) : bot_scope.
Notation "c ;; k" := (bind c (fun _ => k))
  (at level 100, k at level 200, right associativity) : bot_scope.
Local Open Scope bot_scope.

(** [for (const x of xs) { body }] *)
Fixpoint for_of {A} (xs : list A) (body : A -> M unit) : M unit :=
  match xs with
  | [] => ret tt
  | x :: rest => body x ;; for_of rest body
  end.

(** *** Primitive effects *)

(** [new Date()] and [Date.now()] *)
Definition new_Date : M Z :=
  fun env w => (Normal (clock env (clock_reads w)), tick_clock w).

(** [Math.random().toString(36)] *)
Definition Math_random_toString36 : M string :=
  fun env w => (Normal (random36 env (random_draws w)), tick_random w).

Definition logger_info : M unit := ret tt.
Definition logger_warn : M unit := ret tt.
Definition logger_error : M unit := ret tt.

Definition get_isReady : M bool := fun _ w => (Normal (isReady w), w).

(** [this.sessions.get(phone)] *)
Definition sessions_get (key : string) : M (option Session) :=
  fun _ w => (Normal (sessions w !! key), w).

(** [this.sessions.set(phone, session)]; also an assignment to a field of
    the session object that the map holds under [key], the local [session]
    being that same object. *)
Definition sessions_set (key : string) (session : Session) : M unit :=
  fun _ w => (Normal tt, set_sessions (<[key := session]> (sessions w)) w).

(** [this.sessions.delete(phone)] *)
Definition sessions_delete (key : string) : M unit :=
  fun _ w => (Normal tt, set_sessions (delete key (sessions w)) w).

(** [this.sessions.entries()], for a loop that deletes nothing but entries
    it has reached *)
Definition sessions_entries : M (list (string * Session)) :=
  fun _ w => (Normal (map_to_list (sessions w)), w).

(** [axios.post(AI_AGENT_URL + '/agent/process-message', ...)], giving
    [response.data] *)
Definition axios_post_agent (user_id : string) (message : JSValue)
    (session_id : string) (ctx : JSValue) : M JSValue :=
  fun env w =>
    (ai_agent env (length (network w)),
     record_call (AgentPost user_id message session_id ctx) w).

(** [this.client.sendMessage(to, message)] *)
Definition client_sendMessage (to : string) (message : JSValue) : M JSValue :=
  fun env w =>
    (whatsapp_client env (length (network w)), record_call (ClientSend to message) w).

(** [axios.post('https://graph.facebook.com/v17.0/.../messages', ...)],
    giving [response.data] *)
Definition axios_post_graph (to : string) (type : string) (payload : JSValue) : M JSValue :=
  fun env w =>
    (graph_api env (length (network w)), record_call (GraphPost to type payload) w).

(** ** The webhook request *)

Record ChangeValue : Type := {
  (** [change.value.messages]: an array where it is there, absent in a
      change that brings no message; an element is [None] where the array
      holds [null] *)
  messages : option (list (option Message));
}.

Record Change : Type := {
  (** [change.value]; [None] where the change has none, or is [null] itself:
      reading [change.value.messages] then throws a [TypeError] *)
  value : option ChangeValue;
}.

Record WebhookEntry : Type := {
  (** [webhookEntry.changes]; [None] where there is nothing to iterate (no
      [changes], or an entry that is [null]): the loop then throws a
      [TypeError] *)
  changes : option (list Change);
}.

Record WebhookBody : Type := {
  (** [req.body.entry], absent in a body that is not a delivery *)
  entry : option (list WebhookEntry);
}.

Record Request : Type := {
  (** [req.headers['x-hub-signature-256']] *)
  x_hub_signature_256 : option string;
  req_body : WebhookBody;
}.

(** What was sent back: the status and the text given to [send]; [None]
    where Express writes the body itself. *)
Record Response : Type := {
  status : Z;
  sent : option string;
}.

(** ** The class [WhatsAppBot] *)

(** What the bot takes from Node and from its configuration. *)
Class Runtime : Type := {
  (** Number::toString of the engine *)
  Number_toString : float -> string;
  (** [crypto.createHmac('sha256', key).update(data).digest('hex')] *)
  hmac_sha256_hex : string -> string -> string;
  (** [JSON.stringify] on a request body *)
  JSON_stringify : WebhookBody -> string;
  (** [process.env.WHATSAPP_VERIFY_TOKEN], [None] when it is not set; then
      [createHmac] throws a [TypeError] *)
  WHATSAPP_VERIFY_TOKEN : option string;
}.

Section WhatsAppBot.

Context `{Runtime}.

Definition fallback_text : string :=
  "Lo siento, tuve un problema procesando tu mensaje. Â¿PodrÃ­as intentarlo de nuevo?".

Definition verifySignature (body : WebhookBody) (signature : option string)
    : Completion bool :=
  match signature with
  | None => Normal false
  | Some signature =>
      if String.eqb signature "" then Normal false
      else
        match WHATSAPP_VERIFY_TOKEN with
        | None => Throw TypeError
        | Some key =>
            let expectedSignature :=
              "sha256=" ++ hmac_sha256_hex key (JSON_stringify body) in
            timingSafeEqual (Buffer_from signature) (Buffer_from expectedSignature)
        end
  end.

Definition is_digit (c : ascii) : bool :=
  (48 <=? code c) && (code c <=? 57).

(** [s.replace(/\D/g, '')] *)
Fixpoint remove_non_digits (s : string) : string :=
  match s with
  | EmptyString => EmptyString
  | String c rest =>
      if is_digit c then String c (remove_non_digits rest) else remove_non_digits rest
  end.

Definition formatPhoneNumber (phone : string) : string :=
  let cleaned := remove_non_digits phone in
  let cleaned := if negb (String.prefix "506" cleaned) then "506" ++ cleaned else cleaned in
  cleaned ++ "@c.us".

Definition generateConversationId : M string :=
  let* now := new_Date in
  let* r := Math_random_toString36 in
  ret ("conv_" ++ pretty now ++ "_" ++ String.substring 2 9 r).

Definition type_is (message : Message) (name : string) : bool :=
  match type message with
  | JStr t => String.eqb t name
  | _ => false
  end.

Definition extractMessageContent (message : Message) : JSValue :=
  if type_is message "text" then
    body message
  else if type_is message "image" then
    JStr ("[Imagen: "
          ++ ToString Number_toString (js_or (caption message) (JStr "Sin descripciÃ³n"))
          ++ "]")
  else if type_is message "video" then
    JStr ("[Video: "
          ++ ToString Number_toString (js_or (caption message) (JStr "Sin descripciÃ³n"))
          ++ "]")
  else if type_is message "audio" then
    JStr "[Audio]"
  else if type_is message "document" then
    JStr ("[Documento: "
          ++ ToString Number_toString (js_or (body message) (JStr "Sin nombre"))
          ++ "]")
  else if type_is message "location" then
    JStr ("[UbicaciÃ³n: " ++ ToString Number_toString (lat message) ++ ", "
          ++ ToString Number_toString (lng message) ++ "]")
  else
    JStr "[Mensaje no soportado]".

(** [message.type === name] *)
Definition is_string (v : JSValue) (name : string) : bool :=
  match v with
  | JStr t => String.eqb t name
  | _ => false
  end.

(** [extractMessageContent(message)] as the engine runs it on whatever it
    is handed, an element of a webhook body included: reading a property
    of [null] or [undefined] throws, and so does a template literal on a
    value that has no primitive form. *)
Definition extractMessageContent_run (message : JSValue) : Completion JSValue :=
  and_then (get_prop message "type") (fun type =>
  if is_string type "text" then
    get_prop message "body"
  else if is_string type "image" then
    and_then (get_prop message "caption") (fun caption =>
    and_then (ToString_or_throw Number_toString (js_or caption (JStr "Sin descripciÃ³n")))
      (fun shown => Normal (JStr ("[Imagen: " ++ shown ++ "]"))))
  else if is_string type "video" then
    and_then (get_prop message "caption") (fun caption =>
    and_then (ToString_or_throw Number_toString (js_or caption (JStr "Sin descripciÃ³n")))
      (fun shown => Normal (JStr ("[Video: " ++ shown ++ "]"))))
  else if is_string type "audio" then
    Normal (JStr "[Audio]")
  else if is_string type "document" then
    and_then (get_prop message "body") (fun body =>
    and_then (ToString_or_throw Number_toString (js_or body (JStr "Sin nombre")))
      (fun shown => Normal (JStr ("[Documento: " ++ shown ++ "]"))))
  else if is_string type "location" then
    and_then (get_prop message "lat") (fun lat =>
    and_then (ToString_or_throw Number_toString lat) (fun shown_lat =>
    and_then (get_prop message "lng") (fun lng =>
    and_then (ToString_or_throw Number_toString lng) (fun shown_lng =>
    Normal (JStr ("[UbicaciÃ³n: " ++ shown_lat ++ ", " ++ shown_lng ++ "]"))))))
  else
    Normal (JStr "[Mensaje no soportado]")).

Definition processWithAI (phone : string) (message : JSValue) (session : Session)
    : M JSValue :=
  try_catch
    (axios_post_agent phone message (conversation_id session) (context session))
    (fun error =>
       logger_error ;;
       ret (JObj [("response", JStr fallback_text); ("context", context session)])).

Definition sendWhatsAppBusinessMessage (phone : string) (message : JSValue)
    (type : string) : M JSValue :=
  try_catch
    (axios_post_graph phone type message)
    (fun error => logger_error ;; throw error).

Definition sendButtonMessage (phone : string) (messageData : JSValue) : M JSValue :=
  try_catch
    (let* text := lift (get_prop messageData "text") in
     let* buttons := lift (get_prop messageData "buttons") in
     let* mapped :=
       lift (array_map buttons (fun btn =>
               match get_prop btn "id", get_prop btn "text" with
               | Normal id, Normal text => Normal (JObj [("id", id); ("body", text)])
               | Throw e, _ | _, Throw e => Throw e
               end)) in
     let buttonMessage :=
       JObj [("text", text);
             ("footer", JStr "Shaymee - Tu tienda de confianza");
             ("buttons", mapped)] in
     sendWhatsAppBusinessMessage phone buttonMessage "button")
    (fun error => logger_error ;; throw error).

Definition sendListMessage (phone : string) (messageData : JSValue) : M JSValue :=
  try_catch
    (let* text := lift (get_prop messageData "text") in
     let* sections := lift (get_prop messageData "sections") in
     let listMessage :=
       JObj [("text", text);
             ("footer", JStr "Shaymee - Tu tienda de confianza");
             ("sections", sections)] in
     sendWhatsAppBusinessMessage phone listMessage "list")
    (fun error => logger_error ;; throw error).

Definition not_ready : Exn := Error "WhatsApp client not ready".

Definition sendMessage (phone : string) (message : JSValue) (type : string) : M JSValue :=
  try_catch
    (let* ready := get_isReady in
     (if negb ready then throw not_ready else ret tt) ;;
     let formattedPhone := formatPhoneNumber phone in
     let* result :=
       if String.eqb type "text" then client_sendMessage formattedPhone message
       else if String.eqb type "image" then client_sendMessage formattedPhone message
       else if String.eqb type "button" then sendButtonMessage formattedPhone message
       else if String.eqb type "list" then sendListMessage formattedPhone message
       else client_sendMessage formattedPhone message in
     logger_info ;;
     let* id := lift (get_prop result "id") in
     let* serialized := lift (get_prop id "_serialized") in
     ret (JObj [("success", JBool true); ("message_id", serialized)]))
    (fun error => logger_error ;; throw error).

Definition with_last_activity (t : Z) (s : Session) : Session :=
  {| phone := phone s; conversation_id := conversation_id s;
     last_activity := t; context := context s |}.

Definition with_context (c : JSValue) (s : Session) : Session :=
  {| phone := phone s; conversation_id := conversation_id s;
     last_activity := last_activity s; context := c |}.

Definition handleIncomingMessage (message : Message) : M unit :=
  try_catch
    (let phone := from message in
     let messageType := type message in
     let messageContent := extractMessageContent message in
     logger_info ;;
     let* found := sessions_get phone in
     let* session :=
       match found with
       | Some session => ret session
       | None =>
           let* id := generateConversationId in
           let* now := new_Date in
           let session :=
             {| phone := phone; conversation_id := id;
                last_activity := now; context := JObj [] |} in
           sessions_set phone session ;;
           ret session
       end in
     let* now := new_Date in
     let session := with_last_activity now session in
     sessions_set phone session ;;
     let* aiResponse := processWithAI phone messageContent session in
     let* response := lift (get_prop aiResponse "response") in
     sendMessage phone response "text" ;;
     let* returned := lift (get_prop aiResponse "context") in
     sessions_set phone (with_context (js_or returned (context session)) session))
    (fun error =>
       logger_error ;;
       try_catch
         (sendMessage (from message) (JStr fallback_text) "text" ;; ret tt)
         (fun sendError => logger_error)).

Definition maxAge : Z := 24 * 60 * 60 * 1000.

Definition cleanupSessions : M unit :=
  let* now := new_Date in
  let* entries := sessions_entries in
  for_of entries (fun '(phone, session) =>
    if now - last_activity session >? maxAge then
      sessions_delete phone ;; logger_info
    else ret tt).

(** *** Express: the middleware and the route of [/webhook] *)

Definition res_status_send (code : Z) (text : string) : Response :=
  {| status := code; sent := Some text |}.

(** [this.app.use('/webhook', (req, res, next) => ...)] *)
Definition webhook_middleware (req : Request) (next : M Response) : M Response :=
  let signature := x_hub_signature_256 req in
  let* ok := lift (verifySignature (req_body req) signature) in
  if ok then next else ret (res_status_send 401 "Unauthorized").

(** [this.handleIncomingMessage(message)] for an element of [messages].
    On [null], [message.from] throws at the first line of the try block and
    again in the catch block, where the inner catch takes it: nothing but
    logging happens. *)
Definition handleIncomingElement (message : option Message) : M unit :=
  match message with
  | Some message => handleIncomingMessage message
  | None =>
      try_catch
        (throw TypeError)
        (fun error =>
           logger_error ;;
           try_catch (throw TypeError) (fun sendError => logger_error))
  end.

(** [this.app.post('/webhook', async (req, res) => ...)] *)
Definition webhook_route (req : Request) : M Response :=
  try_catch
    (let* entry :=
       match entry (req_body req) with
       | Some entry => ret entry
       | None => throw TypeError
       end in
     for_of entry (fun webhookEntry =>
       let* changes :=
         match changes webhookEntry with
         | Some changes => ret changes
         | None => throw TypeError
         end in
       for_of changes (fun change =>
         let* value :=
           match value change with
           | Some value => ret value
           | None => throw TypeError
           end in
         match messages value with
         | Some (m :: ms) => for_of (m :: ms) handleIncomingElement
         | _ => ret tt
         end)) ;;
     ret (res_status_send 200 "OK"))
    (fun error => logger_error ;; ret (res_status_send 500 "Internal Server Error")).

(** Express runs the middleware, then the route; an exception thrown by a
    handler goes to its default error handler, which answers 500. *)
Definition post_webhook (req : Request) : M Response :=
  try_catch
    (webhook_middleware req (webhook_route req))
    (fun error => ret {| status := 500; sent := None |}).

(** *** Events: what drives the bot *)

Inductive Input : Type :=
| Webhook (req : Request)
| ClientMessage (message : Message)
| ClientReady
| ClientAuthFailure
| ClientDisconnected
| CleanupTimer.

Definition set_ready (b : bool) : M unit :=
  fun _ w => (Normal tt, set_isReady b w).

Definition dispatch (i : Input) : M unit :=
  match i with
  | Webhook req => post_webhook req ;; ret tt
  | ClientMessage message => handleIncomingMessage message
  | ClientReady => set_ready true ;; logger_info
  | ClientAuthFailure => logger_error ;; set_ready false
  | ClientDisconnected => logger_warn ;; set_ready false
  | CleanupTimer => cleanupSessions
  end.

Definition step (env : Env) (w : World) (i : Input) : World :=
  snd (dispatch i env w).

Definition run (env : Env) (inputs : list Input) (w : World) : World :=
  fold_left (step env) inputs w.

End WhatsAppBot.

(** ** Observations on a turn *)

(** The context of the user's session as a turn finds it; that of a
    session the turn has to create is the empty object. *)
Definition prior_context (w : World) (user : string) : JSValue :=
  match sessions w !! user with
  | Some session => context session
  | None => JObj []
  end.

Definition context_of (w : World) (user : string) : option JSValue :=
  context <$> sessions w !! user.

(** The network calls made on the way from [w] to [w']. *)
Definition calls_since (w w' : World) : list NetEvent :=
  drop (length (network w)) (network w').

(** In a turn that starts in [w], the AI agent answers the first network
    call and the WhatsApp client the second, the delivery of the reply. *)
Definition agent_answer (env : Env) (w : World) : Completion JSValue :=
  ai_agent env (length (network w)).

Definition reply_delivery (env : Env) (w : World) : Completion JSValue :=
  whatsapp_client env (S (length (network w))).

(** The value [sendMessage] returns for a delivered message. *)
Definition delivered (message_id : JSValue) : JSValue :=
  JObj [("success", JBool true); ("message_id", message_id)].

(** [result.id._serialized] *)
Definition id_serialized (result : JSValue) : Completion JSValue :=
  match get_prop result "id" with
  | Normal id => get_prop id "_serialized"
  | Throw e => Throw e
  end.

(** The message types [extractMessageContent] has a case for. *)
Definition documented_types : list string :=
  ["text"; "image"; "video"; "audio"; "document"; "location"].

(** Whether the sweep at time [now] finds the session idle for too long. *)
Definition idle (now : Z) (session : Session) : bool :=
  now - last_activity session >? maxAge.

(** The worlds the bot passes through on the inputs, the first excepted. *)
Fixpoint worlds_along (stepf : World -> Input -> World) (inputs : list Input)
    (w : World) : list World :=
  match inputs with
  | [] => []
  | i :: rest => stepf w i :: worlds_along stepf rest (stepf w i)
  end.

(** Which transport a message of the given type goes out on. *)
Definition over_graph_api (type : string) : bool :=
  String.eqb type "button" || String.eqb type "list".

Definition transport_answer (env : Env) (type : string) (n : nat) : Completion JSValue :=
  if over_graph_api type then graph_api env n else whatsapp_client env n.

(** What [sendMessage] makes of the transport's answer. *)
Definition delivery_result (answer : Completion JSValue) : Completion JSValue :=
  match answer with
  | Normal result =>
      match id_serialized result with
      | Normal id => Normal (delivered id)
      | Throw e => Throw e
      end
  | Throw e => Throw e
  end.

(** What the loop of [cleanupSessions] does to the map, entry by entry. *)
Definition sweep_entry (now : Z) (m : gmap string Session) (kv : string * Session)
    : gmap string Session :=
  if idle now kv.2 then delete kv.1 m else m.

(** Every session is stored under its own [phone]. *)
Definition keyed (w : World) : Prop :=
  ∀ k s, sessions w !! k = Some s → phone s = k.

(** From [w] to [w'] every session stays, with its [phone] and its
    [conversation_id], and a session that appears is stored under its
    [phone]. *)
Definition carries_on (w w' : World) : Prop :=
  (∀ k s, sessions w !! k = Some s →
     ∃ s', sessions w' !! k = Some s'
           ∧ conversation_id s' = conversation_id s ∧ phone s' = phone s)
  ∧ (∀ k s', sessions w !! k = None → sessions w' !! k = Some s' → phone s' = k).

(** A computation that, however it ends, leaves a world that carries on. *)
Definition steady {A} (c : M A) : Prop :=
  ∀ env w, carries_on w (snd (c env w)).

(** ** More of the class: the other routes and [sendProductMenu] *)

(** The body of a request to [/send]: [phone] (a string), [message] and
    [type], the last absent when the sender leaves the default. *)
Record SendBody : Type := {
  send_phone : string;
  send_message : JSValue;
  send_type : option string;
}.

(** A JSON answer of a route: [res.json(value)], or
    [res.status(code).json({ error: error.message })]. *)
Inductive JsonReply : Type :=
| Json (value : JSValue)
| JsonError (code : Z) (error : Exn).

(** The answer of [/health]. *)
Record HealthReport : Type := {
  report_status : string;
  whatsapp_ready : bool;
  session_count : nat;
}.

Section Routes.

Context `{Runtime}.

(** [this.app.get('/health', ...)] *)
Definition health_route : M HealthReport :=
  fun _ w =>
    (Normal {| report_status := "OK"; whatsapp_ready := isReady w;
               session_count := size (sessions w) |}, w).

(** [this.app.post('/send', async (req, res) => ...)] *)
Definition send_route (b : SendBody) : M JsonReply :=
  try_catch
    (let phone := send_phone b in
     let message := send_message b in
     let type := default "text" (send_type b) in
     let* result := sendMessage phone message type in
     ret (Json result))
    (fun error => logger_error ;; ret (JsonError 500 error)).

Definition sendProductMenu (phone : string) (categories : JSValue) : M JSValue :=
  let* rows :=
    lift (array_map categories (fun cat =>
            match get_prop cat "id", get_prop cat "name", get_prop cat "description" with
            | Normal id, Normal name, Normal description =>
                Normal (JObj [("id", JStr ("cat_" ++ ToString Number_toString id));
                              ("title", name);
                              ("description", description)])
            | Throw e, _, _ | _, Throw e, _ | _, _, Throw e => Throw e
            end)) in
  let messageData :=
    JObj [("text", JStr "Â¿QuÃ© categorÃ­a te interesa?");
          ("sections",
           JArr [JObj [("title", JStr "CategorÃ­as disponibles"); ("rows", rows)]])] in
  sendListMessage phone messageData.

End Routes.

(** ** Turns that overlap *)

(** [handleIncomingMessage] is [async]: at each [await] the turn is
    suspended until what it waits for is settled, and meanwhile other
    turns run, of the same user too. Below is the method cut at its awaits:
    the frame of a suspended turn, the part that runs when a message
    arrives, and the part that runs when the turn is resumed.

    The local [session] of a turn is the object the store holds under the
    sender's number, nothing deleting a session between the steps
    considered here: what a turn reads of [session] and assigns to it, it
    reads and assigns there, whatever other turns have assigned meanwhile.
    The frame keeps the object as the turn last wrote it, which stands for
    it should the store hold none. *)

Inductive Suspended : Type :=
| AwaitAgent (message : Message) (session : Session) (call : nat)
| AwaitProcessed (message : Message) (session : Session) (aiResponse : JSValue)
| AwaitClient (message : Message) (session : Session) (aiResponse : JSValue) (call : nat)
| AwaitSent (message : Message) (session : Session) (aiResponse : JSValue)
    (outcome : Completion JSValue)
| AwaitApologyClient (message : Message) (call : nat)
| AwaitApologySent (message : Message) (outcome : Completion JSValue).

Section Overlap.

Context `{Runtime}.

(** The request of [axios.post] to the AI agent goes out: its number among
    the network calls, under which the answer comes. *)
Definition request_agent (user_id : string) (message : JSValue)
    (session_id : string) (ctx : JSValue) : M nat :=
  fun _ w =>
    (Normal (length (network w)), record_call (AgentPost user_id message session_id ctx) w).

(** The request of [this.client.sendMessage] goes out. *)
Definition request_client (to : string) (message : JSValue) : M nat :=
  fun _ w => (Normal (length (network w)), record_call (ClientSend to message) w).

(** The session object of [phone], as it is now. *)
Definition held (phone : string) (session : Session) : M Session :=
  fun _ w => (Normal (default session (sessions w !! phone)), w).

(** [session.context = c], on the session object of [phone] *)
Definition assign_context (phone : string) (c : JSValue) : M unit :=
  fun _ w =>
    match sessions w !! phone with
    | Some current =>
        (Normal tt, set_sessions (<[phone := with_context c current]> (sessions w)) w)
    | None => (Normal tt, w)
    end.

(** [sendMessage(phone, message, 'text')] up to its [await]: the number of
    the call to the client, or what is thrown before any call. *)
Definition sendMessage_begins (phone : string) (message : JSValue) : M nat :=
  try_catch
    (let* ready := get_isReady in
     (if negb ready then throw not_ready else ret tt) ;;
     let formattedPhone := formatPhoneNumber phone in
     request_client formattedPhone message)
    (fun error => logger_error ;; throw error).

(** [sendMessage] from its [await] on, the client having settled the call
    with [answer]. *)
Definition sendMessage_ends (answer : Completion JSValue) : M JSValue :=
  try_catch
    (let* result := lift answer in
     logger_info ;;
     let* id := lift (get_prop result "id") in
     let* serialized := lift (get_prop id "_serialized") in
     ret (JObj [("success", JBool true); ("message_id", serialized)]))
    (fun error => logger_error ;; throw error).

(** [sendMessage] of the reply or of the apology, as far as it gets before
    the turn is suspended: at the call to the client, or at the [await] of
    [sendMessage] itself where it threw before any call. *)
Definition send_begins (phone : string) (message : JSValue)
    (waiting : nat -> Suspended) (thrown : Completion JSValue -> Suspended)
    : M (option Suspended) :=
  try_catch
    (let* call := sendMessage_begins phone message in ret (Some (waiting call)))
    (fun error => ret (Some (thrown (Throw error)))).

(** The catch block of [handleIncomingMessage], up to its [await]. *)
Definition apology_begins (message : Message) : M (option Suspended) :=
  logger_error ;;
  send_begins (from message) (JStr fallback_text)
    (AwaitApologyClient message) (AwaitApologySent message).

(** A message arrives: [handleIncomingMessage] up to the [await] of
    [axios.post] in [processWithAI]. *)
Definition turn_begins (message : Message) : M Suspended :=
  let phone := from message in
  let messageType := type message in
  let messageContent := extractMessageContent message in
  logger_info ;;
  let* found := sessions_get phone in
  let* session :=
    match found with
    | Some session => ret session
    | None =>
        let* id := generateConversationId in
        let* now := new_Date in
        let session :=
          {| phone := phone; conversation_id := id;
             last_activity := now; context := JObj [] |} in
        sessions_set phone session ;;
        ret session
    end in
  let* now := new_Date in
  let session := with_last_activity now session in
  sessions_set phone session ;;
  let* call :=
    request_agent phone messageContent (conversation_id session) (context session) in
  ret (AwaitAgent message session call).

(** What the turn waited for is settled and the turn goes on to its next
    [await], or to its end ([None]). *)
Definition turn_resumes (frame : Suspended) : M (option Suspended) :=
  match frame with
  | AwaitAgent message session call =>
      let* aiResponse :=
        try_catch
          (fun env w => (ai_agent env call, w))
          (fun error =>
             logger_error ;;
             let* session := held (from message) session in
             ret (JObj [("response", JStr fallback_text); ("context", context session)])) in
      ret (Some (AwaitProcessed message session aiResponse))
  | AwaitProcessed message session aiResponse =>
      try_catch
        (let* response := lift (get_prop aiResponse "response") in
         send_begins (from message) response
           (AwaitClient message session aiResponse) (AwaitSent message session aiResponse))
        (fun error => apology_begins message)
  | AwaitClient message session aiResponse call =>
      fun env w =>
        let '(outcome, w') := sendMessage_ends (whatsapp_client env call) env w in
        (Normal (Some (AwaitSent message session aiResponse outcome)), w')
  | AwaitSent message session aiResponse outcome =>
      try_catch
        (lift outcome ;;
         let* returned := lift (get_prop aiResponse "context") in
         let* session := held (from message) session in
         assign_context (from message) (js_or returned (context session)) ;;
         ret None)
        (fun error => apology_begins message)
  | AwaitApologyClient message call =>
      fun env w =>
        let '(outcome, w') := sendMessage_ends (whatsapp_client env call) env w in
        (Normal (Some (AwaitApologySent message outcome)), w')
  | AwaitApologySent message outcome =>
      try_catch
        (lift outcome ;; ret None)
        (fun sendError => logger_error ;; ret None)
  end.

(** A turn run from a frame to its end with nothing in between; six
    resumptions are the most a turn has. *)
Fixpoint turn_runs (resumptions : nat) (frame : option Suspended) : M unit :=
  match frame, resumptions with
  | Some frame, S resumptions =>
      let* next := turn_resumes frame in turn_runs resumptions next
  | _, _ => ret tt
  end.

Definition turn_alone (message : Message) : M unit :=
  let* frame := turn_begins message in
  turn_runs 6 (Some frame).

(** The bot with its turns in flight, in the order they began; a turn that
    has ended is [None]. *)
Record Bot : Type := {
  bot_world : World;
  turns : list (option Suspended);
}.

(** What happens to the bot: a message arrives and its turn begins, or
    what the turn of the given number waits for is settled. *)
Inductive Happening : Type :=
| Arrives (message : Message)
| Settles (turn : nat).

Definition happen (env : Env) (bot : Bot) (h : Happening) : Bot :=
  match h with
  | Arrives message =>
      match turn_begins message env (bot_world bot) with
      | (Normal frame, w') => {| bot_world := w'; turns := turns bot ++ [Some frame] |}
      | (Throw _, w') => {| bot_world := w'; turns := turns bot ++ [None] |}
      end
  | Settles turn =>
      match turns bot !! turn with
      | Some (Some frame) =>
          match turn_resumes frame env (bot_world bot) with
          | (Normal next, w') =>
              {| bot_world := w'; turns := <[turn := next]> (turns bot) |}
          | (Throw _, w') =>
              {| bot_world := w'; turns := <[turn := None]> (turns bot) |}
          end
      | _ => bot
      end
  end.

Definition play (env : Env) (happenings : list Happening) (bot : Bot) : Bot :=
  fold_left (happen env) happenings bot.

End Overlap.

(** ** Further observations *)

(** The messages of a delivery, in the order the route meets them; the
    [null] elements are none. *)
Definition messages_of_value (v : ChangeValue) : list Message :=
  omap id (default [] (messages v)).

Definition messages_of_change (c : Change) : list Message :=
  from_option messages_of_value [] (value c).

Definition messages_of_entries (entries : list WebhookEntry) : list Message :=
  concat (List.map (fun e => concat (List.map messages_of_change (default [] (changes e))))
                   entries).

(** A loop that stops at the first element it cannot get through: the
    messages it meets up to there, and whether it gets through all. *)
Fixpoint walk {A} (f : A -> list Message * bool) (xs : list A) : list Message * bool :=
  match xs with
  | [] => ([], true)
  | x :: rest =>
      if snd (f x) then (fst (f x) ++ fst (walk f rest), snd (walk f rest))%list
      else (fst (f x), false)
  end.

(** A change without [value] stops the route. *)
Definition walk_change (c : Change) : list Message * bool :=
  match value c with
  | Some v => (messages_of_value v, true)
  | None => ([], false)
  end.

(** An entry without [changes] stops the route. *)
Definition walk_entry (e : WebhookEntry) : list Message * bool :=
  match changes e with
  | Some cs => walk walk_change cs
  | None => ([], false)
  end.

(** The messages the route handles of the entries, in this order, and
    whether it gets through the whole delivery. *)
Definition handled (entries : list WebhookEntry) : list Message * bool :=
  walk walk_entry entries.

(** The turns of the given messages, one after the other. *)
Definition handle_all `{Runtime} (env : Env) (ms : list Message) (w : World) : World :=
  fold_left (fun w m => snd (handleIncomingMessage m env w)) ms w.

(** What the calls to the AI agent carry, call by call: sender and content. *)
Fixpoint forwarded (calls : list NetEvent) : list (string * JSValue) :=
  match calls with
  | [] => []
  | AgentPost user content _ _ :: rest => (user, content) :: forwarded rest
  | _ :: rest => forwarded rest
  end.

(** Whether the client is ready after the inputs, by the client events
    among them alone. *)
Definition readiness_after (inputs : list Input) (ready : bool) : bool :=
  fold_left (fun b i =>
    match i with
    | ClientReady => true
    | ClientAuthFailure | ClientDisconnected => false
    | _ => b
    end) inputs ready.

(** A call the bot may make in a turn: one to the AI agent, or a send
    through the WhatsApp client when the client is ready. *)
Definition turn_call (ready : bool) (ev : NetEvent) : Prop :=
  match ev with
  | AgentPost _ _ _ _ => True
  | ClientSend _ _ => ready = true
  | GraphPost _ _ _ => False
  end.

(** Readiness is kept and only calls of a turn are made. *)
Definition turn_like (w w' : World) : Prop :=
  isReady w' = isReady w
  /\ exists calls, network w' = (network w ++ calls)%list
                 /\ Forall (turn_call (isReady w)) calls.

(** The character a UTF-8 sequence of [Buffer_from] starts with, and the
    bytes after it. *)
Definition decode_char (bytes : Buffer) : option (ascii * Buffer) :=
  match bytes with
  | [] => None
  | b :: rest =>
      if b <? 128 then Some (ascii_of_N (Z.to_N b), rest)
      else
        match rest with
        | [] => None
        | b' :: rest' => Some (ascii_of_N (Z.to_N ((b - 192) * 64 + (b' - 128))), rest')
        end
  end.

Definition all_digits (s : string) : Prop :=
  forall c, In c (list_ascii_of_string s) -> is_digit c = true.

(** [v.k] where it does not throw, [undefined] where it would. *)
Definition prop (v : JSValue) (k : string) : JSValue :=
  match get_prop v k with
  | Normal x => x
  | Throw _ => JUndefined
  end.

Definition nullish (v : JSValue) : bool :=
  match v with
  | JUndefined | JNull => true
  | _ => false
  end.

(** What [sendButtonMessage] makes of a button that is not nullish. *)
Definition button_of (btn : JSValue) : JSValue :=
  JObj [("id", prop btn "id"); ("body", prop btn "text")].

(** What [sendProductMenu] makes of a category that is not nullish. *)
Definition row_of `{Runtime} (cat : JSValue) : JSValue :=
  JObj [("id", JStr ("cat_" ++ ToString Number_toString (prop cat "id")));
        ("title", prop cat "name");
        ("description", prop cat "description")].

(** The list message [sendProductMenu] posts for the given rows. *)
Definition product_menu (rows : list JSValue) : JSValue :=
  JObj [("text", JStr "Â¿QuÃ© categorÃ­a te interesa?");
        ("footer", JStr "Shaymee - Tu tienda de confianza");
        ("sections",
         JArr [JObj [("title", JStr "CategorÃ­as disponibles"); ("rows", JArr rows)]])].

(** The character does not occur in the string. *)
Definition free_of (c : ascii) (s : string) : Prop :=
  ~ In c (list_ascii_of_string s).

(** *** What the normaliser is handed *)

(** A message of the record, as the object the bot is handed. *)
Definition message_object (m : Message) : JSValue :=
  JObj [("from", JStr (from m)); ("type", type m); ("body", body m);
        ("caption", caption m); ("lat", lat m); ("lng", lng m)].

(** The values the normaliser puts into a template literal, by the type
    of the message: none for a text, an audio and an unknown type. *)
Definition rendered (message : JSValue) : list JSValue :=
  let type := prop message "type" in
  if is_string type "image" || is_string type "video" then
    [js_or (prop message "caption") (JStr "Sin descripciÃ³n")]
  else if is_string type "document" then
    [js_or (prop message "body") (JStr "Sin nombre")]
  else if is_string type "location" then
    [prop message "lat"; prop message "lng"]
  else [].

(** The value has a string form. *)
Definition convertible `{Runtime} (v : JSValue) : bool :=
  is_normal (ToString_or_throw Number_toString v).

(** ** Concrete data, for the examples *)

Module Sample.

(** Stand-ins for the engine and the library functions in the examples:
    a digest is 64 hexadecimal digits, as a SHA-256 digest is. *)
Definition runtime : Runtime :=
  {| Number_toString := fun _ => "0";
     hmac_sha256_hex := fun _ _ =>
       "0000000000000000000000000000000000000000000000000000000000000000";
     JSON_stringify := fun _ => "{}";
     WHATSAPP_VERIFY_TOKEN := Some "secret" |}.

Definition message_id : JSValue := JStr "true_50688887777@c.us_3EB0".

(** A message object as the WhatsApp client resolves [sendMessage] with. *)
Definition sent_message : JSValue :=
  JObj [("id", JObj [("_serialized", message_id)]); ("body", JStr "")].

Definition greeting : JSValue := JObj [("step", JStr "greeting")].
Definition browsing : JSValue := JObj [("step", JStr "browsing")].

Definition env_of (agent client : Completion JSValue) : Env :=
  {| clock := fun n => 1700000000000 + Z.of_nat n;
     random36 := fun _ => "0.4fzyo82mvyr";
     ai_agent := fun _ => agent;
     whatsapp_client := fun _ => client;
     graph_api := fun _ => Throw (Error "Network Error") |}.

(** Everything answers. *)
Definition env_up : Env :=
  env_of (Normal (JObj [("response", JStr "Hola!"); ("context", browsing)]))
         (Normal sent_message).

(** The AI agent is unreachable. *)
Definition env_agent_down : Env :=
  env_of (Throw (Error "connect ECONNREFUSED")) (Normal sent_message).

(** The AI agent answers without a context. *)
Definition env_null_context : Env :=
  env_of (Normal (JObj [("response", JStr "Hola!"); ("context", JNull)]))
         (Normal sent_message).

(** The WhatsApp client rejects every send. *)
Definition env_client_down : Env :=
  env_of (Normal (JObj [("response", JStr "Hola!"); ("context", browsing)]))
         (Throw (Error "Evaluation failed")).

Definition user : string := "50688887777".

Definition hola : Message :=
  {| from := user; type := JStr "text"; body := JStr "Hola";
     caption := JUndefined; lat := JUndefined; lng := JUndefined |}.

Definition voice_note : Message :=
  {| from := user; type := JStr "audio"; body := JUndefined;
     caption := JUndefined; lat := JUndefined; lng := JUndefined |}.

Definition sticker : Message :=
  {| from := user; type := JStr "sticker"; body := JUndefined;
     caption := JUndefined; lat := JUndefined; lng := JUndefined |}.

Definition session_of_user : Session :=
  {| phone := user; conversation_id := "conv_1699999990000_k2j4h5g6f";
     last_activity := 1699999990000; context := greeting |}.

(** A session last touched more than eleven days before the sample clock. *)
Definition stale_session : Session :=
  {| phone := "50670001111"; conversation_id := "conv_1699000000000_a1b2c3d4e";
     last_activity := 1699000000000; context := JObj [] |}.

(** The client is connected and the user has a session. *)
Definition connected : World :=
  {| sessions := {[ user := session_of_user ]}; isReady := true; network := [];
     clock_reads := 0; random_draws := 0 |}.

(** The client is not connected; the user has a session. *)
Definition disconnected : World :=
  {| sessions := {[ user := session_of_user ]}; isReady := false; network := [];
     clock_reads := 0; random_draws := 0 |}.

(** Two sessions, one of them idle for more than a day at the sample clock. *)
Definition two_sessions : World :=
  {| sessions := <[ "50670001111" := stale_session ]> {[ user := session_of_user ]};
     isReady := true; network := []; clock_reads := 0; random_draws := 0 |}.

Definition empty_body : WebhookBody := {| entry := None |}.

Definition delivery (ms : list Message) : WebhookBody :=
  {| entry :=
       Some [ {| changes :=
                   Some [ {| value := Some {| messages := Some (List.map Some ms) |} |} ]
              |} ] |}.

(** A request whose signature header is shorter than any signature. *)
Definition truncated_signature : Request :=
  {| x_hub_signature_256 := Some "sha256"; req_body := delivery [hola] |}.

Definition unsigned : Request :=
  {| x_hub_signature_256 := None; req_body := delivery [hola] |}.

End Sample.

(** ** More concrete data *)

Module MoreSample.

(** The signature the sample runtime expects, for every body. *)
Definition expected_signature : string :=
  "sha256=0000000000000000000000000000000000000000000000000000000000000000".

(** A signed delivery of two messages. *)
Definition signed : Request :=
  {| x_hub_signature_256 := Some expected_signature;
     req_body := Sample.delivery [Sample.hola; Sample.voice_note] |}.

(** A request with a signature of the right length that is not the
    expected one. *)
Definition forged : Request :=
  {| x_hub_signature_256 :=
       Some "sha256=1111111111111111111111111111111111111111111111111111111111111111";
     req_body := Sample.delivery [Sample.hola] |}.



(** An image whose caption is an object with a [toString] that is data, as
    a JSON body can carry it. *)
Definition odd_caption : JSValue :=
  JObj [("from", JStr Sample.user); ("type", JStr "image");
        ("caption", JObj [("toString", JNull)])].

(** A position, as an object. *)
Definition position : JSValue :=
  JObj [("from", JStr Sample.user); ("type", JStr "location");
        ("lat", JStr "9.93"); ("lng", JStr "-84.08")].

(** The AI agent does not answer the first call, which fails by its
    timeout, and answers every other. *)
Definition env_agent_slow_once : Env :=
  {| clock := clock Sample.env_up;
     random36 := random36 Sample.env_up;
     ai_agent := fun call =>
       match call with
       | O => Throw (Error "timeout of 30000ms exceeded")
       | _ => ai_agent Sample.env_up call
       end;
     whatsapp_client := whatsapp_client Sample.env_up;
     graph_api := graph_api Sample.env_up |}.

(** Two messages of one user, the second arriving while the first waits
    for the AI agent. The agent answers the second; the reply goes out;
    then the call of the first fails, and its fallback reply goes out. The
    client delivers the two replies in the order it got them. *)
Definition overlapping : list Happening :=
  [Arrives Sample.hola; Arrives Sample.voice_note;
   Settles 1; Settles 1;
   Settles 0; Settles 0;
   Settles 1; Settles 1;
   Settles 0; Settles 0].

(** The answer of the Graph API to a posted message: it has no [id]. *)
Definition graph_answer : JSValue :=
  JObj [("messaging_product", JStr "whatsapp");
        ("messages", JArr [JObj [("id", JStr "wamid.HBgL")]])].

Definition env_graph_up : Env :=
  {| clock := clock Sample.env_up;
     random36 := random36 Sample.env_up;
     ai_agent := ai_agent Sample.env_up;
     whatsapp_client := whatsapp_client Sample.env_up;
     graph_api := fun _ => Normal graph_answer |}.

Definition menu : JSValue :=
  JObj [("text", JStr "Elige");
        ("sections", JArr [JObj [("title", JStr "Ropa"); ("rows", JArr [])]])].

Definition text_to_user : SendBody :=
  {| send_phone := Sample.user; send_message := JStr "Hola!"; send_type := None |}.

End MoreSample.

(** ** Properties *)

Section Properties.

Context `{Runtime}.

(** Unfolds the monad and the primitive effects. *)
Ltac run_monad :=
  unfold try_catch, bind, ret, throw, lift, logger_info, logger_error, logger_warn,
    get_isReady, sessions_get, sessions_set, sessions_delete, client_sendMessage,
    axios_post_agent, axios_post_graph, new_Date, Math_random_toString36 in *;
  simpl in *.

(** *** The signature verifier *)

Lemma length_Buffer_from_le (s : string) :
  (String.length s <= length (Buffer_from s))%nat.
Proof.
  induction s as [|c rest IH]; simpl; [lia|].
  destruct (code c <? 128); simpl; lia.
Qed.

Lemma verifySignature_absent body :
  verifySignature body None = Normal false.
Proof. reflexivity. Qed.

Lemma verifySignature_empty body :
  verifySignature body (Some "") = Normal false.
Proof. reflexivity. Qed.

(** With a key configured, a header that is present throws exactly when its
    byte length differs from that of the expected signature. *)
Lemma verifySignature_throws_iff key body signature :
  WHATSAPP_VERIFY_TOKEN = Some key →
  signature ≠ "" →
  let expected := "sha256=" ++ hmac_sha256_hex key (JSON_stringify body) in
  verifySignature body (Some signature) = Throw RangeError
  ↔ length (Buffer_from signature) ≠ length (Buffer_from expected).
Proof.
  intros Hkey Hne expected. unfold verifySignature. rewrite Hkey.
  destruct (String.eqb_spec signature "") as [->|_]; [done|].
  fold expected. unfold timingSafeEqual.
  destruct (Nat.eqb_spec (length (Buffer_from signature)) (length (Buffer_from expected))).
  - split; [discriminate | done].
  - split; done.
Qed.

Lemma verifySignature_truncated body :
  verifySignature body (Some "sha256")
  = Throw (match WHATSAPP_VERIFY_TOKEN with
           | Some _ => RangeError
           | None => TypeError
           end).
Proof.
  destruct WHATSAPP_VERIFY_TOKEN as [key|] eqn:Hkey.
  - apply (verifySignature_throws_iff key); [done|done|].
    pose proof (length_Buffer_from_le
                  ("sha256=" ++ hmac_sha256_hex key (JSON_stringify body))) as Hle.
    change (length (Buffer_from "sha256")) with 6%nat.
    simpl String.length in Hle. lia.
  - unfold verifySignature. rewrite Hkey. reflexivity.
Qed.

(** C1, at a header that is too short: the header [sha256], six bytes long,
    makes [verifySignature] throw, whatever the body and the key (a
    [RangeError] out of [timingSafeEqual] when a key is configured), where
    the design document has it return false. *)
Theorem verifySignature_throws_on_truncated_header body :
  verifySignature body (Some "sha256")
  = Throw (match WHATSAPP_VERIFY_TOKEN with
           | Some _ => RangeError
           | None => TypeError
           end).
Proof. apply verifySignature_truncated. Qed.

(** *** The message normaliser *)

Lemma type_is_true message name :
  type message = JStr name → type_is message name = true.
Proof. intros Ht. unfold type_is. rewrite Ht. apply String.eqb_refl. Qed.

Lemma type_is_false message name :
  type message ≠ JStr name → type_is message name = false.
Proof.
  intros Ht. unfold type_is. destruct (type message) as [| | | |t| |]; try done.
  destruct (String.eqb_spec t name) as [->|]; done.
Qed.

(** The contents by type, for a message of the record with fields that
    have a string form. Each of the six documented types has its content: the body for a text, the
    bracketed placeholders for the others, [[Audio]] for an audio. A
    message of any other type, or of none, gets the fixed placeholder
    [[Mensaje no soportado]]. Nothing but the body of a text can be other
    than a string. *)
Theorem extractMessageContent_by_type (message : Message) :
  (type message = JStr "text" → extractMessageContent message = body message)
  ∧ (type message = JStr "image" →
     extractMessageContent message
     = JStr ("[Imagen: "
             ++ ToString Number_toString
                  (js_or (caption message) (JStr "Sin descripciÃ³n")) ++ "]"))
  ∧ (type message = JStr "video" →
     extractMessageContent message
     = JStr ("[Video: "
             ++ ToString Number_toString
                  (js_or (caption message) (JStr "Sin descripciÃ³n")) ++ "]"))
  ∧ (type message = JStr "audio" → extractMessageContent message = JStr "[Audio]")
  ∧ (type message = JStr "document" →
     extractMessageContent message
     = JStr ("[Documento: "
             ++ ToString Number_toString
                  (js_or (body message) (JStr "Sin nombre")) ++ "]"))
  ∧ (type message = JStr "location" →
     extractMessageContent message
     = JStr ("[UbicaciÃ³n: " ++ ToString Number_toString (lat message) ++ ", "
             ++ ToString Number_toString (lng message) ++ "]"))
  ∧ ((∀ t, t ∈ documented_types → type message ≠ JStr t) →
     extractMessageContent message = JStr "[Mensaje no soportado]")
  ∧ (type message ≠ JStr "text" → ∃ s, extractMessageContent message = JStr s).
Proof.
  unfold extractMessageContent.
  repeat split.
  1-6: intros Ht; rewrite ?(type_is_true _ _ Ht);
       repeat (rewrite type_is_false; [|rewrite Ht; discriminate]);
       rewrite ?(type_is_true _ _ Ht); reflexivity.
  - intros Hnone.
    repeat (rewrite type_is_false;
            [|apply Hnone; unfold documented_types; set_solver]).
    reflexivity.
  - intros Hnt. rewrite (type_is_false _ _ Hnt).
    repeat (match goal with
            | |- context [if ?b then _ else _] => destruct b
            end; eauto).
Qed.

(** *** Delivery *)

Lemma sendWhatsAppBusinessMessage_eq phone message type env w :
  sendWhatsAppBusinessMessage phone message type env w
  = (graph_api env (length (network w)), record_call (GraphPost phone type message) w).
Proof.
  unfold sendWhatsAppBusinessMessage. run_monad.
  destruct (graph_api env (length (network w))); reflexivity.
Qed.

(** A button or list message either is malformed, and nothing is sent, or
    goes to the Graph API, whose answer is the result. *)
Lemma sendButtonMessage_cases phone messageData env w :
  (∃ e, sendButtonMessage phone messageData env w = (Throw e, w))
  ∨ (∃ payload, sendButtonMessage phone messageData env w
       = (graph_api env (length (network w)),
          record_call (GraphPost phone "button" payload) w)).
Proof.
  unfold sendButtonMessage. run_monad.
  destruct (get_prop messageData "text") as [text|e]; [|left; eauto].
  destruct (get_prop messageData "buttons") as [buttons|e]; [|left; eauto].
  destruct (array_map buttons _) as [mapped|e]; [|left; eauto].
  rewrite sendWhatsAppBusinessMessage_eq. right. eexists.
  destruct (graph_api env (length (network w))); reflexivity.
Qed.

Lemma sendListMessage_cases phone messageData env w :
  (∃ e, sendListMessage phone messageData env w = (Throw e, w))
  ∨ (∃ payload, sendListMessage phone messageData env w
       = (graph_api env (length (network w)),
          record_call (GraphPost phone "list" payload) w)).
Proof.
  unfold sendListMessage. run_monad.
  destruct (get_prop messageData "text") as [text|e]; [|left; eauto].
  destruct (get_prop messageData "sections") as [sections|e]; [|left; eauto].
  rewrite sendWhatsAppBusinessMessage_eq. right. eexists.
  destruct (graph_api env (length (network w))); reflexivity.
Qed.

Lemma sendMessage_not_ready phone message type env w :
  isReady w = false →
  sendMessage phone message type env w = (Throw not_ready, w).
Proof. intros Hr. unfold sendMessage. run_monad. rewrite Hr. reflexivity. Qed.

(** A message for the WhatsApp client, the client being ready: one call,
    and the result is made of its answer. *)
Lemma sendMessage_client phone message type env w :
  isReady w = true →
  over_graph_api type = false →
  sendMessage phone message type env w
  = (delivery_result (whatsapp_client env (length (network w))),
     record_call (ClientSend (formatPhoneNumber phone) message) w).
Proof.
  intros Hr Ht. unfold over_graph_api in Ht. apply orb_false_elim in Ht as [Hb Hl].
  unfold sendMessage. run_monad. rewrite Hr, Hb, Hl. simpl.
  unfold delivery_result, id_serialized.
  destruct (type =? "text")%string, (type =? "image")%string;
    (destruct (whatsapp_client env (length (network w))) as [result|e]; [|reflexivity];
     simpl; destruct (get_prop result "id") as [id|e]; [|reflexivity];
     destruct (get_prop id "_serialized"); reflexivity).
Qed.

(** In every case: [sendMessage] throws, or it made exactly one call, the
    transport answered it, and the result is made of that answer. *)
Lemma sendMessage_cases phone message type env w :
  (∃ e w', sendMessage phone message type env w = (Throw e, w'))
  ∨ (∃ ev result id,
       transport_answer env type (length (network w)) = Normal result
       ∧ id_serialized result = Normal id
       ∧ sendMessage phone message type env w = (Normal (delivered id), record_call ev w)).
Proof.
  destruct (isReady w) eqn:Hr; [|left; rewrite sendMessage_not_ready; eauto].
  destruct (over_graph_api type) eqn:Ht.
  - unfold transport_answer. rewrite Ht.
    assert (Hbranch :
      ∃ send, (send = sendButtonMessage ∨ send = sendListMessage)
        ∧ sendMessage phone message type env w
          = match send (formatPhoneNumber phone) message env w with
            | (Normal result, w') =>
                (match id_serialized result with
                 | Normal id => Normal (delivered id)
                 | Throw e => Throw e
                 end, w')
            | (Throw e, w') => (Throw e, w')
            end).
    { unfold over_graph_api in Ht.
      destruct (String.eqb_spec type "button") as [->|];
        [exists sendButtonMessage
        |destruct (String.eqb_spec type "list") as [->|]; [|discriminate];
         exists sendListMessage];
        (split; [auto|]); unfold sendMessage; run_monad; rewrite Hr; simpl;
        match goal with
        | |- context [?send (formatPhoneNumber phone) message env w] =>
            destruct (send (formatPhoneNumber phone) message env w) as [[result|e] w']
        end; try reflexivity;
        unfold id_serialized;
        (destruct (get_prop result "id") as [id|e]; [|reflexivity]);
        destruct (get_prop id "_serialized"); reflexivity. }
    destruct Hbranch as (send & Hsend & ->).
    assert (Hcases :
      (∃ e, send (formatPhoneNumber phone) message env w = (Throw e, w))
      ∨ (∃ ev, send (formatPhoneNumber phone) message env w
           = (graph_api env (length (network w)), record_call ev w))).
    { destruct Hsend as [->| ->].
      - destruct (sendButtonMessage_cases (formatPhoneNumber phone) message env w)
          as [[e He]|[p Hp]]; [left|right]; eauto.
      - destruct (sendListMessage_cases (formatPhoneNumber phone) message env w)
          as [[e He]|[p Hp]]; [left|right]; eauto. }
    destruct Hcases as [[e ->]|[ev ->]]; [left; eauto|].
    destruct (graph_api env (length (network w))) as [result|e]; [|left; eauto].
    destruct (id_serialized result) as [id|e] eqn:Hid; [|left; eauto].
    right. exists ev, result, id. auto.
  - rewrite sendMessage_client by done.
    unfold transport_answer. rewrite Ht. unfold delivery_result.
    destruct (whatsapp_client env (length (network w))) as [result|e]; [|left; eauto].
    destruct (id_serialized result) as [id|e] eqn:Hid; [|left; eauto].
    right. eauto 10.
Qed.

(** C5, as the code has it: [sendMessage] raises where the design document
    has it return a failure. Called while the client is not ready, it
    throws [WhatsApp client not ready] at once and makes no network call.
    When the transport rejects the call, it throws too, and for a message
    sent through the WhatsApp client it rethrows the very error. Whatever
    it returns is a success: [{ success: true, message_id }]. *)
Theorem sendMessage_delivers_or_raises phone message type env w :
  (isReady w = false →
   sendMessage phone message type env w = (Throw not_ready, w))
  ∧ (∀ e, transport_answer env type (length (network w)) = Throw e →
     is_normal (fst (sendMessage phone message type env w)) = false)
  ∧ (∀ e, isReady w = true → over_graph_api type = false →
     whatsapp_client env (length (network w)) = Throw e →
     sendMessage phone message type env w
     = (Throw e, record_call (ClientSend (formatPhoneNumber phone) message) w))
  ∧ (∀ r, fst (sendMessage phone message type env w) = Normal r →
     ∃ id, r = delivered id).
Proof.
  split; [apply sendMessage_not_ready|].
  split; [|split].
  - intros e He.
    destruct (sendMessage_cases phone message type env w)
      as [(e' & w' & Hs)|(ev & result & id & Ha & _ & _)].
    + rewrite Hs. reflexivity.
    + congruence.
  - intros e Hr Ht He. rewrite sendMessage_client by done. rewrite He. reflexivity.
  - intros r Hres.
    destruct (sendMessage_cases phone message type env w)
      as [(e' & w' & Hs)|(ev & result & id & _ & _ & Hs)];
      rewrite Hs in Hres; simpl in Hres; [discriminate|].
    injection Hres as <-. eauto.
Qed.

(** *** One turn of [handleIncomingMessage] *)

(** The turn, step by step. It finds or creates the session and stamps it
    (world [w1]), calls the AI agent (world [w2]), sends the reply and, the
    reply sent, stores the context. Whatever throws on the way leads to the
    apology, whose own failure is dropped. *)
Lemma handleIncomingMessage_turn message env w :
  let user := from message in
  ∃ session w1,
    phone session = match sessions w !! user with Some s0 => phone s0 | None => user end
    ∧ context session = prior_context w user
    ∧ (∀ s0, sessions w !! user = Some s0 → conversation_id session = conversation_id s0)
    ∧ sessions w1 = <[user := session]> (sessions w)
    ∧ isReady w1 = isReady w
    ∧ network w1 = network w
    ∧ let w2 := record_call (AgentPost user (extractMessageContent message)
                               (conversation_id session) (context session)) w1 in
      let aiResponse :=
        match agent_answer env w with
        | Normal data => data
        | Throw _ => JObj [("response", JStr fallback_text); ("context", context session)]
        end in
      let apologise (w' : World) : Completion unit * World :=
        (Normal tt, snd (sendMessage user (JStr fallback_text) "text" env w')) in
      handleIncomingMessage message env w
      = match get_prop aiResponse "response" with
        | Throw _ => apologise w2
        | Normal response =>
            match sendMessage user response "text" env w2 with
            | (Throw _, w3) => apologise w3
            | (Normal _, w3) =>
                match get_prop aiResponse "context" with
                | Throw _ => apologise w3
                | Normal returned =>
                    (Normal tt,
                     set_sessions
                       (<[user := with_context (js_or returned (context session)) session]>
                          (sessions w3)) w3)
                end
            end
        end.
Proof.
  intros user.
  assert (Hcatch : ∀ w', try_catch
            (sendMessage user (JStr fallback_text) "text" ;; ret tt)
            (fun _ => logger_error) env w'
          = (Normal tt, snd (sendMessage user (JStr fallback_text) "text" env w'))).
  { intros w'. run_monad.
    destruct (sendMessage user (JStr fallback_text) "text" env w') as [[r|e] w'']; reflexivity. }
  unfold handleIncomingMessage, generateConversationId, processWithAI, agent_answer,
    prior_context.
  fold user.
  destruct (sessions w !! user) as [s0|] eqn:Hs0.
  - exists (with_last_activity (clock env (clock_reads w)) s0).
    eexists. split; [|split; [|split; [|split; [|split; [|split]]]]]; cycle 6.
    + run_monad. rewrite Hs0. simpl.
      destruct (ai_agent env (length (network w))) as [data|e0]; simpl.
      * destruct (get_prop data "response") as [response|e1]; simpl; [|apply Hcatch].
        match goal with
        | |- context [sendMessage user response "text" env ?w2] =>
            destruct (sendMessage user response "text" env w2) as [[r|e2] w3]
        end; [|apply Hcatch].
        destruct (get_prop data "context") as [returned|e3]; [reflexivity|apply Hcatch].
      * match goal with
        | |- context [sendMessage user (JStr fallback_text) "text" env ?w2] =>
            destruct (sendMessage user (JStr fallback_text) "text" env w2) as [[r|e2] w3]
        end; [reflexivity|apply Hcatch].
    + reflexivity.
    + reflexivity.
    + intros s1 [= <-]. reflexivity.
    + reflexivity.
    + reflexivity.
    + reflexivity.
  - eexists {| phone := user; conversation_id := _; last_activity := _; context := JObj [] |}.
    eexists. split; [|split; [|split; [|split; [|split; [|split]]]]]; cycle 6.
    + run_monad. rewrite Hs0. simpl.
      destruct (ai_agent env (length (network w))) as [data|e0]; simpl.
      * destruct (get_prop data "response") as [response|e1]; simpl; [|apply Hcatch].
        match goal with
        | |- context [sendMessage user response "text" env ?w2] =>
            destruct (sendMessage user response "text" env w2) as [[r|e2] w3]
        end; [|apply Hcatch].
        destruct (get_prop data "context") as [returned|e3]; [reflexivity|apply Hcatch].
      * match goal with
        | |- context [sendMessage user (JStr fallback_text) "text" env ?w2] =>
            destruct (sendMessage user (JStr fallback_text) "text" env w2) as [[r|e2] w3]
        end; [reflexivity|apply Hcatch].
    + reflexivity.
    + reflexivity.
    + intros s1 [=].
    + simpl. apply insert_insert_eq.
    + reflexivity.
    + reflexivity.
Qed.

Lemma js_or_same (v : JSValue) : js_or v v = v.
Proof. unfold js_or. destruct (truthy v); reflexivity. Qed.

Lemma calls_since_app (w w' : World) (calls : list NetEvent) :
  network w' = (network w ++ calls)%list → calls_since w w' = calls.
Proof. intros Hn. unfold calls_since. rewrite Hn. apply drop_app_length. Qed.

Lemma sendMessage_text_ready user message env w :
  isReady w = true →
  sendMessage user message "text" env w
  = (delivery_result (whatsapp_client env (length (network w))),
     record_call (ClientSend (formatPhoneNumber user) message) w).
Proof. intros Hr. apply sendMessage_client; [exact Hr|reflexivity]. Qed.

Lemma context_of_insert (m : gmap string Session) (w : World) user session :
  sessions w = <[user := session]> m → context_of w user = Some (context session).
Proof. intros Hs. unfold context_of. rewrite Hs, lookup_insert_eq. reflexivity. Qed.

(** A turn that runs from its first step to its last with no other in
    between, and in which the call to the AI agent fails: the session's
    context after the turn is the one the turn found (that of a session it
    created is the empty object), no other session changes, and every
    message handed to the WhatsApp client is the fixed fallback text,
    addressed to the sender; with the client ready, one is handed over. *)
Theorem failed_reasoning_keeps_context message env w e :
  agent_answer env w = Throw e →
  let user := from message in
  let w' := snd (handleIncomingMessage message env w) in
  context_of w' user = Some (prior_context w user)
  ∧ (∀ other, other ≠ user → sessions w' !! other = sessions w !! other)
  ∧ ∃ session_id sends,
      calls_since w w'
      = AgentPost user (extractMessageContent message) session_id (prior_context w user)
        :: sends
      ∧ Forall (eq (ClientSend (formatPhoneNumber user) (JStr fallback_text))) sends
      ∧ (isReady w = true → sends ≠ []).
Proof.
  intros Hfail user w'.
  destruct (handleIncomingMessage_turn message env w)
    as (session & w1 & _ & Hctx & _ & Hs1 & Hr1 & Hn1 & Hturn).
  fold user in Hctx, Hs1, Hturn. rewrite Hfail in Hturn. simpl in Hturn.
  rewrite <- Hctx. subst w'.
  remember (record_call _ w1) as w2 eqn:Hw2 in Hturn.
  assert (Hn2 : network w2
                = (network w ++ [AgentPost user (extractMessageContent message)
                                   (conversation_id session) (context session)])%list)
    by (subst w2; simpl; rewrite Hn1; reflexivity).
  assert (Hr2 : isReady w2 = isReady w) by (subst w2; exact Hr1).
  assert (Hs2 : sessions w2 = <[user := session]> (sessions w)) by (subst w2; exact Hs1).
  clear Hw2.
  assert (Hother : ∀ other, other ≠ user → sessions w2 !! other = sessions w !! other)
    by (intros other Hne; rewrite Hs2, lookup_insert_ne; done).
  destruct (isReady w) eqn:Hready.
  - rewrite sendMessage_text_ready in Hturn by exact Hr2.
    destruct (delivery_result _) as [r|e2] in Hturn.
    + rewrite Hturn. simpl. rewrite js_or_same. split; [|split].
      * unfold context_of. simpl. rewrite lookup_insert_eq. reflexivity.
      * intros other Hne. rewrite lookup_insert_ne by done. apply Hother, Hne.
      * eexists _, [_]. split;
          [apply calls_since_app; simpl; rewrite Hn2, <- app_assoc; reflexivity|].
        split; [repeat constructor|done].
    + rewrite sendMessage_text_ready in Hturn by exact Hr2.
      rewrite Hturn. simpl. split; [|split].
      * eapply context_of_insert, Hs2.
      * apply Hother.
      * eexists _, [_; _]. split;
          [apply calls_since_app; simpl; rewrite Hn2, <- !app_assoc; reflexivity|].
        split; [repeat constructor|done].
  - rewrite sendMessage_not_ready in Hturn by exact Hr2.
    rewrite sendMessage_not_ready in Hturn by exact Hr2.
    rewrite Hturn. simpl. split; [|split].
    + eapply context_of_insert, Hs2.
    + apply Hother.
    + eexists _, []. split; [apply calls_since_app; rewrite Hn2; reflexivity|].
      split; [constructor|done].
Qed.

Lemma sendMessage_text_world user message env w :
  snd (sendMessage user message "text" env w)
  = if isReady w then record_call (ClientSend (formatPhoneNumber user) message) w else w.
Proof.
  destruct (isReady w) eqn:Hr.
  - rewrite sendMessage_text_ready by exact Hr. reflexivity.
  - rewrite sendMessage_not_ready by exact Hr. reflexivity.
Qed.

(** C3, as the code has it: in a turn in which the AI agent answers and
    the reply is delivered, the session's context after the turn is the
    context the agent returned when that value is truthy, whatever the
    session held before; when the agent returned none, or a falsy one
    ([null], [false], [0], the empty string), the session keeps the context
    it had. No other session changes. This holds from every state, so for
    every turn of a sequence. *)
Theorem delivered_turn_stores_returned_context
    message env w data response returned result id :
  agent_answer env w = Normal data →
  get_prop data "response" = Normal response →
  get_prop data "context" = Normal returned →
  isReady w = true →
  reply_delivery env w = Normal result →
  id_serialized result = Normal id →
  let user := from message in
  let w' := snd (handleIncomingMessage message env w) in
  context_of w' user
  = Some (if truthy returned then returned else prior_context w user)
  ∧ (∀ other, other ≠ user → sessions w' !! other = sessions w !! other).
Proof.
  intros Hdata Hresp Hret Hready Hsend Hid user w'.
  destruct (handleIncomingMessage_turn message env w)
    as (session & w1 & _ & Hctx & _ & Hs1 & Hr1 & Hn1 & Hturn).
  fold user in Hctx, Hs1, Hturn. rewrite Hdata in Hturn.
  cbv beta iota zeta in Hturn. rewrite Hresp, Hret in Hturn.
  rewrite sendMessage_text_ready in Hturn by (simpl; congruence).
  simpl in Hturn. rewrite Hn1, length_app, Nat.add_1_r in Hturn.
  unfold reply_delivery in Hsend. rewrite Hsend in Hturn.
  unfold delivery_result in Hturn. rewrite Hid in Hturn.
  subst w'. rewrite Hturn. simpl. split.
  - unfold context_of. simpl. rewrite lookup_insert_eq. simpl.
    unfold js_or. rewrite Hctx. reflexivity.
  - intros other Hne. rewrite lookup_insert_ne, Hs1, lookup_insert_ne by done.
    reflexivity.
Qed.

(** C4, as the code has it: the reply is sent before the context is
    stored. In a turn in which the AI agent answers but the reply is not
    delivered (the client is not ready, rejects the message, or resolves
    with no message id), the session still holds the context the turn
    found, whatever context the agent returned; and with the client ready
    the reply had been handed to it. *)
Theorem undelivered_reply_keeps_context message env w data response :
  agent_answer env w = Normal data →
  get_prop data "response" = Normal response →
  isReady w = false ∨ is_normal (delivery_result (reply_delivery env w)) = false →
  let user := from message in
  let w' := snd (handleIncomingMessage message env w) in
  context_of w' user = Some (prior_context w user)
  ∧ (isReady w = true →
     ∃ session_id rest,
       calls_since w w'
       = AgentPost user (extractMessageContent message) session_id (prior_context w user)
         :: ClientSend (formatPhoneNumber user) response :: rest).
Proof.
  intros Hdata Hresp Hundelivered user w'.
  destruct (handleIncomingMessage_turn message env w)
    as (session & w1 & _ & Hctx & _ & Hs1 & Hr1 & Hn1 & Hturn).
  fold user in Hctx, Hs1, Hturn. rewrite Hdata in Hturn.
  cbv beta iota zeta in Hturn. rewrite Hresp in Hturn.
  rewrite <- Hctx. subst w'.
  remember (record_call _ w1) as w2 eqn:Hw2 in Hturn.
  assert (Hn2 : network w2
                = (network w ++ [AgentPost user (extractMessageContent message)
                                   (conversation_id session) (context session)])%list)
    by (subst w2; simpl; rewrite Hn1; reflexivity).
  assert (Hr2 : isReady w2 = isReady w) by (subst w2; exact Hr1).
  assert (Hs2 : sessions w2 = <[user := session]> (sessions w)) by (subst w2; exact Hs1).
  clear Hw2.
  destruct (isReady w) eqn:Hready.
  - destruct Hundelivered as [|Hfails]; [discriminate|].
    rewrite sendMessage_text_ready in Hturn by exact Hr2.
    rewrite Hn2, length_app, Nat.add_1_r in Hturn. fold (reply_delivery env w) in Hturn.
    destruct (delivery_result (reply_delivery env w)) as [r|e]; [discriminate|].
    rewrite Hturn. simpl. rewrite sendMessage_text_world. simpl. rewrite Hr2. simpl.
    split; [eapply context_of_insert, Hs2|].
    intros _. eexists _, [_].
    apply calls_since_app. simpl. rewrite Hn2, <- !app_assoc. reflexivity.
  - rewrite sendMessage_not_ready in Hturn by exact Hr2.
    rewrite Hturn. simpl. rewrite sendMessage_not_ready by exact Hr2. simpl.
    split; [eapply context_of_insert, Hs2|discriminate].
Qed.

(** C10: [handleIncomingMessage] completes normally for every message and
    every behaviour of the clock, the AI agent and the WhatsApp client. On
    the network it makes the call to the AI agent, then at most one send of
    a reply and at most one send of the apology, in this order. *)
Theorem handleIncomingMessage_never_throws message env w :
  let user := from message in
  let w' := snd (handleIncomingMessage message env w) in
  fst (handleIncomingMessage message env w) = Normal tt
  ∧ ∃ session_id ctx replies apologies,
      calls_since w w'
      = (AgentPost user (extractMessageContent message) session_id ctx
         :: replies ++ apologies)%list
      ∧ (length replies <= 1)%nat
      ∧ (length apologies <= 1)%nat
      ∧ Forall (λ ev, ∃ reply, ev = ClientSend (formatPhoneNumber user) reply) replies
      ∧ Forall (eq (ClientSend (formatPhoneNumber user) (JStr fallback_text))) apologies.
Proof.
  intros user w'.
  destruct (handleIncomingMessage_turn message env w)
    as (session & w1 & _ & Hctx & _ & Hs1 & Hr1 & Hn1 & Hturn).
  fold user in Hctx, Hs1, Hturn. subst w'.
  remember (record_call _ w1) as w2 eqn:Hw2 in Hturn.
  assert (Hn2 : network w2
                = (network w ++ [AgentPost user (extractMessageContent message)
                                   (conversation_id session) (context session)])%list)
    by (subst w2; simpl; rewrite Hn1; reflexivity).
  clear Hw2.
  set (aiResponse := match agent_answer env w with
                     | Normal data => data
                     | Throw _ => _
                     end) in Hturn.
  assert (Hapology : ∀ w3 replies,
    network w3 = (network w2 ++ replies)%list →
    (length replies <= 1)%nat →
    Forall (λ ev, ∃ reply, ev = ClientSend (formatPhoneNumber user) reply) replies →
    ∃ session_id ctx replies apologies,
      calls_since w (snd (sendMessage user (JStr fallback_text) "text" env w3))
      = (AgentPost user (extractMessageContent message) session_id ctx
         :: replies ++ apologies)%list
      ∧ (length replies <= 1)%nat
      ∧ (length apologies <= 1)%nat
      ∧ Forall (λ ev, ∃ reply, ev = ClientSend (formatPhoneNumber user) reply) replies
      ∧ Forall (eq (ClientSend (formatPhoneNumber user) (JStr fallback_text))) apologies).
  { intros w3 replies Hn3 Hlen Hall. rewrite sendMessage_text_world.
    exists (conversation_id session), (context session), replies.
    destruct (isReady w3).
    - exists [ClientSend (formatPhoneNumber user) (JStr fallback_text)].
      split; [apply calls_since_app; simpl; rewrite Hn3, Hn2, <- !app_assoc; reflexivity|].
      repeat split; auto.
    - exists []. split;
        [apply calls_since_app; rewrite Hn3, Hn2, <- !app_assoc, app_nil_r; reflexivity|].
      repeat split; auto. }
  cbv zeta in Hturn.
  destruct (get_prop aiResponse "response") as [response|e0].
  - pose proof (sendMessage_text_world user response env w2) as Hw3.
    destruct (sendMessage user response "text" env w2) as [[r|e1] w3]; simpl in Hw3.
    + assert (Hdone : ∃ replies, network w3 = (network w2 ++ replies)%list
                ∧ (length replies <= 1)%nat
                ∧ Forall (λ ev, ∃ reply, ev = ClientSend (formatPhoneNumber user) reply)
                         replies).
      { destruct (isReady w2); subst w3.
        - exists [ClientSend (formatPhoneNumber user) response].
          repeat split; simpl; eauto.
        - exists []. rewrite app_nil_r. repeat split; simpl; auto. }
      destruct Hdone as (replies & Hn3 & Hlen & Hall).
      destruct (get_prop aiResponse "context") as [returned|e2].
      * rewrite Hturn. simpl. split; [reflexivity|].
        exists (conversation_id session), (context session), replies, [].
        split; [apply calls_since_app; simpl; rewrite Hn3, Hn2, app_nil_r, <- !app_assoc;
                reflexivity|].
        repeat split; auto.
      * rewrite Hturn. simpl. split; [reflexivity|]. eapply Hapology; eauto.
    + rewrite Hturn. simpl. split; [reflexivity|].
      destruct (isReady w2); subst w3.
      * eapply (Hapology _ [ClientSend (formatPhoneNumber user) response]);
          simpl; eauto.
      * eapply (Hapology _ []); simpl; auto. rewrite app_nil_r. reflexivity.
  - rewrite Hturn. simpl. split; [reflexivity|].
    eapply (Hapology _ []); simpl; auto. rewrite app_nil_r. reflexivity.
Qed.

(** *** The sweep *)

Lemma set_sessions_same w : set_sessions (sessions w) w = w.
Proof. destruct w; reflexivity. Qed.

Lemma for_of_sweep now entries env w :
  for_of entries (fun '(phone, session) =>
    if now - last_activity session >? maxAge then
      sessions_delete phone ;; logger_info
    else ret tt) env w
  = (Normal tt, set_sessions (foldl (sweep_entry now) (sessions w) entries) w).
Proof.
  revert w. induction entries as [|[phone session] rest IH]; intros w.
  - simpl. rewrite set_sessions_same. reflexivity.
  - simpl. unfold bind at 1. unfold sweep_entry at 2, idle. simpl.
    destruct (now - last_activity session >? maxAge).
    + run_monad. rewrite IH. reflexivity.
    + run_monad. rewrite IH. reflexivity.
Qed.

Lemma sweep_stays_absent now entries (m : gmap string Session) k :
  m !! k = None → foldl (sweep_entry now) m entries !! k = None.
Proof.
  revert m. induction entries as [|[p s] rest IH]; intros m Hm; [exact Hm|].
  simpl. apply IH. unfold sweep_entry. simpl.
  destruct (idle now s); [|exact Hm].
  destruct (decide (p = k)) as [->|Hne].
  - apply lookup_delete_eq.
  - rewrite lookup_delete_ne by done. exact Hm.
Qed.

Lemma sweep_removes_idle now entries (m : gmap string Session) k s :
  (k, s) ∈ entries → idle now s = true →
  foldl (sweep_entry now) m entries !! k = None.
Proof.
  revert m. induction entries as [|[p s'] rest IH]; intros m Hin Hidle.
  - inversion Hin.
  - apply elem_of_cons in Hin as [[= <- <-]|Hin].
    + simpl. apply sweep_stays_absent. unfold sweep_entry. simpl.
      rewrite Hidle. apply lookup_delete_eq.
    + simpl. apply IH; assumption.
Qed.

Lemma sweep_keeps_others now entries (m : gmap string Session) k :
  (∀ s, (k, s) ∈ entries → idle now s = false) →
  foldl (sweep_entry now) m entries !! k = m !! k.
Proof.
  revert m. induction entries as [|[p s'] rest IH]; intros m Hall; [reflexivity|].
  simpl. rewrite IH by (intros s Hin; apply Hall; right; exact Hin).
  unfold sweep_entry. simpl. destruct (idle now s') eqn:Hidle; [|reflexivity].
  apply lookup_delete_ne. intros ->.
  rewrite (Hall s') in Hidle by left. discriminate.
Qed.

(** The run of [cleanupSessions]: one reading of the clock, then the loop. *)
Lemma cleanupSessions_run env w :
  cleanupSessions env w
  = (Normal tt,
     set_sessions (foldl (sweep_entry (clock env (clock_reads w))) (sessions w)
                         (map_to_list (sessions w)))
                  (tick_clock w)).
Proof.
  unfold cleanupSessions, sessions_entries, new_Date. unfold bind at 1 2.
  rewrite for_of_sweep. reflexivity.
Qed.

Lemma sweep_lookup now (m : gmap string Session) user :
  foldl (sweep_entry now) m (map_to_list m) !! user
  = match m !! user with
    | Some session => if now - last_activity session >? maxAge then None else Some session
    | None => None
    end.
Proof.
  destruct (m !! user) as [session|] eqn:Hs.
  - fold (idle now session). destruct (idle now session) eqn:Hidle.
    + eapply sweep_removes_idle; [|exact Hidle].
      apply elem_of_map_to_list. exact Hs.
    + rewrite sweep_keeps_others; [exact Hs|].
      intros s Hin. apply elem_of_map_to_list in Hin.
      rewrite Hs in Hin. injection Hin as <-. exact Hidle.
  - rewrite sweep_keeps_others; [exact Hs|].
    intros s Hin. apply elem_of_map_to_list in Hin. congruence.
Qed.

(** C8: one pass of [cleanupSessions], at the time [now] it reads off the
    clock, leaves the store without exactly the sessions with
    [now - last_activity > maxAge], [maxAge] being 24 hours in
    milliseconds: such a session is gone, every other session is there
    unchanged, and none appears. The pass completes normally and touches
    nothing else. *)
Theorem cleanupSessions_removes_exactly_idle env w :
  let now := clock env (clock_reads w) in
  let w' := snd (cleanupSessions env w) in
  fst (cleanupSessions env w) = Normal tt
  ∧ maxAge = 86400000
  ∧ (∀ user,
       sessions w' !! user
       = match sessions w !! user with
         | Some session =>
             if now - last_activity session >? maxAge then None else Some session
         | None => None
         end)
  ∧ isReady w' = isReady w
  ∧ network w' = network w.
Proof.
  intros now w'. subst w'. rewrite cleanupSessions_run. simpl.
  split; [reflexivity|]. split; [reflexivity|]. split; [|split; reflexivity].
  intros user. apply sweep_lookup.
Qed.

(** *** The webhook *)

(** A request that does not verify is answered at the middleware: nothing
    of the bot's state changes and no network call is made. The answer is
    401 when [verifySignature] returns false, 500 when it throws. *)
Lemma unverified_request_changes_nothing req env w :
  verifySignature (req_body req) (x_hub_signature_256 req) ≠ Normal true →
  post_webhook req env w
  = (Normal (match verifySignature (req_body req) (x_hub_signature_256 req) with
             | Normal _ => res_status_send 401 "Unauthorized"
             | Throw _ => {| status := 500; sent := None |}
             end), w).
Proof.
  intros Hno. unfold post_webhook, webhook_middleware. run_monad.
  destruct (verifySignature (req_body req) (x_hub_signature_256 req)) as [[|]|e];
    [done|reflexivity|reflexivity].
Qed.

Lemma unsigned_request_is_unauthorized req env w :
  x_hub_signature_256 req = None →
  post_webhook req env w = (Normal (res_status_send 401 "Unauthorized"), w).
Proof.
  intros Hnone. rewrite unverified_request_changes_nothing; rewrite Hnone; done.
Qed.

(** C6, at a header that is too short: a webhook request whose signature
    header is [sha256] is not processed (the state is unchanged, no network
    call is made), but it is answered 500 by Express, not 401: the
    exception out of [verifySignature] bypasses the 401 branch. *)
Theorem truncated_signature_is_answered_500 body env w :
  post_webhook {| x_hub_signature_256 := Some "sha256"; req_body := body |} env w
  = (Normal {| status := 500; sent := None |}, w).
Proof.
  rewrite unverified_request_changes_nothing;
    cbn [req_body x_hub_signature_256]; rewrite verifySignature_truncated; done.
Qed.

(** *** Sessions along a run *)

Lemma carries_on_refl w : carries_on w w.
Proof. split; [eauto|congruence]. Qed.

Lemma carries_on_trans w1 w2 w3 :
  carries_on w1 w2 → carries_on w2 w3 → carries_on w1 w3.
Proof.
  intros [Hkeep12 Hnew12] [Hkeep23 Hnew23]. split.
  - intros k s Hs. destruct (Hkeep12 k s Hs) as (s2 & Hs2 & Hid2 & Hp2).
    destruct (Hkeep23 k s2 Hs2) as (s3 & Hs3 & Hid3 & Hp3).
    exists s3. split; [exact Hs3|]. split; congruence.
  - intros k s3 Hnone Hs3. destruct (sessions w2 !! k) as [s2|] eqn:Hs2.
    + destruct (Hkeep23 k s2 Hs2) as (s3' & Hs3' & _ & Hp3).
      rewrite Hs3 in Hs3'. injection Hs3' as <-.
      rewrite Hp3. eapply Hnew12; eassumption.
    + eapply Hnew23; eassumption.
Qed.

Lemma carries_on_same_sessions w w' : sessions w' = sessions w → carries_on w w'.
Proof. intros Hs. split; rewrite Hs; [eauto|congruence]. Qed.

Lemma steady_ret {A} (a : A) : steady (ret a).
Proof. intros env w. apply carries_on_refl. Qed.

Lemma steady_throw {A} e : steady (@throw A e).
Proof. intros env w. apply carries_on_refl. Qed.

Lemma steady_bind {A B} (c : M A) (k : A → M B) :
  steady c → (∀ a, steady (k a)) → steady (bind c k).
Proof.
  intros Hc Hk env w. unfold bind. specialize (Hc env w).
  destruct (c env w) as [[a|e] w1]; simpl in *; [|exact Hc].
  eapply carries_on_trans; [exact Hc|apply Hk].
Qed.

Lemma steady_try_catch {A} (body : M A) (handler : Exn → M A) :
  steady body → (∀ e, steady (handler e)) → steady (try_catch body handler).
Proof.
  intros Hb Hh env w. unfold try_catch. specialize (Hb env w).
  destruct (body env w) as [[a|e] w1]; simpl in *; [exact Hb|].
  eapply carries_on_trans; [exact Hb|apply Hh].
Qed.

Lemma steady_for_of {A} (xs : list A) (body : A → M unit) :
  (∀ x, steady (body x)) → steady (for_of xs body).
Proof.
  intros Hbody. induction xs as [|x rest IH]; simpl.
  - apply steady_ret.
  - apply steady_bind; [apply Hbody|intros _; exact IH].
Qed.

(** The sessions a turn leaves: those it found, with the sender's session
    put (back) under the sender's number. *)
Lemma handleIncomingMessage_sessions message env w :
  let user := from message in
  ∃ session,
    sessions (snd (handleIncomingMessage message env w)) = <[user := session]> (sessions w)
    ∧ phone session = match sessions w !! user with Some s0 => phone s0 | None => user end
    ∧ (∀ s0, sessions w !! user = Some s0 → conversation_id session = conversation_id s0).
Proof.
  intros user.
  destruct (handleIncomingMessage_turn message env w)
    as (session & w1 & Hphone & _ & Hid & Hs1 & _ & _ & Hturn).
  fold user in Hphone, Hid, Hs1, Hturn. cbv zeta in Hturn.
  assert (Hsend : ∀ m w0, sessions (snd (sendMessage user m "text" env w0)) = sessions w0)
    by (intros m w0; rewrite sendMessage_text_world; destruct (isReady w0); reflexivity).
  set (w2 := record_call _ w1) in Hturn.
  assert (Hs2 : sessions w2 = <[user := session]> (sessions w)) by exact Hs1.
  clearbody w2.
  destruct (get_prop _ "response") as [response|e0] in Hturn.
  - pose proof (Hsend response w2) as Hs3.
    destruct (sendMessage user response "text" env w2) as [[r|e1] w3]; simpl in Hs3.
    + destruct (get_prop _ "context") as [returned|e2] in Hturn.
      * exists (with_context (js_or returned (context session)) session).
        rewrite Hturn. simpl. rewrite Hs3, Hs2, insert_insert_eq. auto.
      * exists session. rewrite Hturn. simpl. rewrite Hsend, Hs3, Hs2. auto.
    + exists session. rewrite Hturn. simpl. rewrite Hsend, Hs3, Hs2. auto.
  - exists session. rewrite Hturn. simpl. rewrite Hsend, Hs2. auto.
Qed.

Lemma steady_handleIncomingMessage message : steady (handleIncomingMessage message).
Proof.
  intros env w.
  destruct (handleIncomingMessage_sessions message env w) as (session & Hs & Hphone & Hid).
  split.
  - intros k s Hk. rewrite Hs. destruct (decide (from message = k)) as [<-|Hne].
    + exists session. rewrite lookup_insert_eq, Hphone, Hk. auto.
    + exists s. rewrite lookup_insert_ne by done. auto.
  - intros k s' Hnone. rewrite Hs. destruct (decide (from message = k)) as [<-|Hne].
    + rewrite lookup_insert_eq. intros [= <-]. rewrite Hphone, Hnone. reflexivity.
    + rewrite lookup_insert_ne by done. congruence.
Qed.

Lemma steady_handleIncomingElement message : steady (handleIncomingElement message).
Proof.
  destruct message as [message|]; [apply steady_handleIncomingMessage|].
  intros env w. apply carries_on_refl.
Qed.

Lemma steady_post_webhook req : steady (post_webhook req).
Proof.
  unfold post_webhook, webhook_middleware, webhook_route.
  apply steady_try_catch; [|intros e; apply steady_ret].
  apply steady_bind; [intros env w; apply carries_on_refl|].
  intros [|]; [|apply steady_ret].
  apply steady_try_catch;
    [|intros e; apply steady_bind; [apply steady_ret|intros _; apply steady_ret]].
  apply steady_bind.
  - destruct (entry (req_body req)); [apply steady_ret|apply steady_throw].
  - intros entries. apply steady_bind; [|intros _; apply steady_ret].
    apply steady_for_of. intros webhookEntry. apply steady_bind.
    { destruct (changes webhookEntry); [apply steady_ret|apply steady_throw]. }
    intros changes. apply steady_for_of. intros change. apply steady_bind.
    { destruct (value change); [apply steady_ret|apply steady_throw]. }
    intros value. destruct (messages value) as [[|m ms]|]; try apply steady_ret.
    apply steady_for_of. intros message. apply steady_handleIncomingElement.
Qed.

(** One input: the store stays keyed, and a session that is there before
    and after has kept its id. *)
Lemma step_keeps_key_and_id env w i :
  (keyed w → keyed (step env w i))
  ∧ (∀ k s s', sessions w !! k = Some s → sessions (step env w i) !! k = Some s' →
       conversation_id s' = conversation_id s).
Proof.
  assert (Hcarry : ∀ w', carries_on w w' →
    (keyed w → keyed w')
    ∧ (∀ k s s', sessions w !! k = Some s → sessions w' !! k = Some s' →
         conversation_id s' = conversation_id s)).
  { intros w' [Hkeep Hnew]. split.
    - intros Hkeyed k s' Hs'. destruct (sessions w !! k) as [s|] eqn:Hs.
      + destruct (Hkeep k s Hs) as (s'' & Hs'' & _ & Hp). rewrite Hs' in Hs''.
        injection Hs'' as <-. rewrite Hp. apply Hkeyed, Hs.
      + eapply Hnew; eassumption.
    - intros k s s' Hs Hs'. destruct (Hkeep k s Hs) as (s'' & Hs'' & Hid & _).
      congruence. }
  unfold step. destruct i as [req|message| | | |]; cbn [dispatch].
  - apply Hcarry.
    apply (steady_bind (post_webhook req) (fun _ => ret tt));
      [apply steady_post_webhook|intros _; apply steady_ret].
  - apply Hcarry, steady_handleIncomingMessage.
  - apply Hcarry, carries_on_same_sessions. reflexivity.
  - apply Hcarry, carries_on_same_sessions. reflexivity.
  - apply Hcarry, carries_on_same_sessions. reflexivity.
  - rewrite cleanupSessions_run. simpl.
    assert (Hsub : ∀ k s',
      foldl (sweep_entry (clock env (clock_reads w))) (sessions w)
            (map_to_list (sessions w)) !! k = Some s' →
      sessions w !! k = Some s').
    { intros k s' Hs'. rewrite sweep_lookup in Hs'.
      destruct (sessions w !! k) as [s|]; [|discriminate].
      destruct (_ >? _); [discriminate|exact Hs']. }
    split.
    + intros Hkeyed k s' Hs'. apply Hkeyed, Hsub, Hs'.
    + intros k s s' Hs Hs'. apply Hsub in Hs'. congruence.
Qed.

Lemma keyed_initial : keyed initial.
Proof. intros k s Hs. unfold initial in Hs. simpl in Hs. rewrite lookup_empty in Hs. done. Qed.

Lemma run_keyed env inputs w : keyed w → keyed (run env inputs w).
Proof.
  revert w. induction inputs as [|i rest IH]; intros w Hk; [exact Hk|].
  simpl. apply IH, step_keeps_key_and_id, Hk.
Qed.

Lemma run_keeps_id env inputs w user s1 :
  sessions w !! user = Some s1 →
  Forall (λ w', is_Some (sessions w' !! user)) (worlds_along (step env) inputs w) →
  ∃ s2, sessions (run env inputs w) !! user = Some s2
        ∧ conversation_id s2 = conversation_id s1.
Proof.
  revert w s1. induction inputs as [|i rest IH]; intros w s1 Hs1 Hall; [eauto|].
  simpl in *. apply Forall_cons in Hall as [[s Hs] Hall].
  destruct (IH _ _ Hs Hall) as (s2 & Hs2 & Hid). exists s2. split; [exact Hs2|].
  rewrite Hid. eapply step_keeps_key_and_id; eassumption.
Qed.

(** C7: after any sequence of inputs (messages, webhook requests, client
    events, sweeps) from the initial state, no two sessions of the store
    belong to one user: sessions with the same [phone] sit under the same
    key. And a user's session keeps the [conversation_id] it was created
    with through any further inputs, for as long as it stays in the store
    (the sweep alone removes it). *)
Theorem one_session_per_user_with_stable_id env before after :
  let w1 := run env before initial in
  let w2 := run env after w1 in
  (∀ k1 k2 s1 s2,
     sessions w1 !! k1 = Some s1 → sessions w1 !! k2 = Some s2 →
     phone s1 = phone s2 → k1 = k2)
  ∧ (∀ user s1,
       sessions w1 !! user = Some s1 →
       Forall (λ w, is_Some (sessions w !! user)) (worlds_along (step env) after w1) →
       ∃ s2, sessions w2 !! user = Some s2
             ∧ conversation_id s2 = conversation_id s1).
Proof.
  intros w1 w2. split.
  - intros k1 k2 s1 s2 Hs1 Hs2 Hphone.
    pose proof (run_keyed env before initial keyed_initial) as Hkeyed.
    rewrite <- (Hkeyed k1 s1 Hs1), <- (Hkeyed k2 s2 Hs2). exact Hphone.
  - intros user s1 Hs1 Hall. apply run_keeps_id; assumption.
Qed.

End Properties.

(** ** Examples: the properties at concrete inputs *)

Section Examples.

#[local] Existing Instance Sample.runtime.

(** The AI agent is down, the client is connected: the user's context
    stays [greeting]. *)
Lemma failed_reasoning_keeps_context_example :
  agent_answer Sample.env_agent_down Sample.connected
  = Throw (Error "connect ECONNREFUSED")
  ∧ context_of (snd (handleIncomingMessage Sample.hola Sample.env_agent_down
                       Sample.connected)) Sample.user
    = Some (prior_context Sample.connected Sample.user).
Proof.
  split; [reflexivity|].
  apply (failed_reasoning_keeps_context Sample.hola Sample.env_agent_down
           Sample.connected (Error "connect ECONNREFUSED")).
  reflexivity.
Defined.

(** C3 fails as stated: the agent returns the context [null], the reply is
    delivered, and the session still holds [greeting], not [null]. *)
Lemma null_context_is_not_stored :
  let data := JObj [("response", JStr "Hola!"); ("context", JNull)] in
  let w' := snd (handleIncomingMessage Sample.hola Sample.env_null_context
                   Sample.connected) in
  agent_answer Sample.env_null_context Sample.connected = Normal data
  ∧ get_prop data "context" = Normal JNull
  ∧ network w' = [AgentPost Sample.user (JStr "Hola")
                    "conv_1699999990000_k2j4h5g6f" Sample.greeting;
                  ClientSend "50688887777@c.us" (JStr "Hola!")]
  ∧ context_of w' Sample.user = Some Sample.greeting
  ∧ context_of w' Sample.user ≠ Some JNull.
Proof.
  repeat split; try (vm_compute; reflexivity).
  vm_compute. discriminate.
Qed.

Lemma delivered_turn_stores_returned_context_example :
  let data := JObj [("response", JStr "Hola!"); ("context", Sample.browsing)] in
  agent_answer Sample.env_up Sample.connected = Normal data
  ∧ reply_delivery Sample.env_up Sample.connected = Normal Sample.sent_message
  ∧ context_of (snd (handleIncomingMessage Sample.hola Sample.env_up Sample.connected))
               Sample.user
    = Some (if truthy Sample.browsing then Sample.browsing
            else prior_context Sample.connected Sample.user).
Proof.
  split; [reflexivity|]. split; [reflexivity|].
  apply (delivered_turn_stores_returned_context Sample.hola Sample.env_up
           Sample.connected
           (JObj [("response", JStr "Hola!"); ("context", Sample.browsing)])
           (JStr "Hola!") Sample.browsing Sample.sent_message Sample.message_id);
    reflexivity.
Defined.

(** C4 fails as stated: the agent returns the context [browsing], the
    client rejects the reply, and the turn ends with [greeting] still
    stored. *)
Lemma context_is_not_stored_before_delivery :
  let data := JObj [("response", JStr "Hola!"); ("context", Sample.browsing)] in
  let w' := snd (handleIncomingMessage Sample.hola Sample.env_client_down
                   Sample.connected) in
  agent_answer Sample.env_client_down Sample.connected = Normal data
  ∧ reply_delivery Sample.env_client_down Sample.connected
    = Throw (Error "Evaluation failed")
  ∧ context_of w' Sample.user = Some Sample.greeting
  ∧ context_of w' Sample.user ≠ Some Sample.browsing.
Proof.
  repeat split; try (vm_compute; reflexivity).
  vm_compute. discriminate.
Qed.

Lemma undelivered_reply_keeps_context_example :
  let data := JObj [("response", JStr "Hola!"); ("context", Sample.browsing)] in
  agent_answer Sample.env_client_down Sample.connected = Normal data
  ∧ is_normal (delivery_result (reply_delivery Sample.env_client_down Sample.connected))
    = false
  ∧ context_of (snd (handleIncomingMessage Sample.hola Sample.env_client_down
                       Sample.connected)) Sample.user
    = Some (prior_context Sample.connected Sample.user).
Proof.
  split; [reflexivity|]. split; [reflexivity|].
  apply (undelivered_reply_keeps_context Sample.hola Sample.env_client_down
           Sample.connected
           (JObj [("response", JStr "Hola!"); ("context", Sample.browsing)])
           (JStr "Hola!")); [reflexivity|reflexivity|].
  right. reflexivity.
Defined.

(** C5 fails as stated: the client rejects the send, and [sendMessage]
    rejects with the same error; it returns no result. *)
Lemma sendMessage_raises_on_transport_error :
  isReady Sample.connected = true
  ∧ whatsapp_client Sample.env_client_down (length (network Sample.connected))
    = Throw (Error "Evaluation failed")
  ∧ sendMessage Sample.user (JStr "Hola!") "text" Sample.env_client_down Sample.connected
    = (Throw (Error "Evaluation failed"),
       record_call (ClientSend "50688887777@c.us" (JStr "Hola!")) Sample.connected)
  ∧ is_normal (fst (sendMessage Sample.user (JStr "Hola!") "text"
                      Sample.env_client_down Sample.connected)) = false.
Proof. repeat split; vm_compute; reflexivity. Qed.

Lemma sendMessage_delivers_or_raises_example :
  isReady Sample.disconnected = false
  ∧ sendMessage Sample.user (JStr "Hola!") "text" Sample.env_up Sample.disconnected
    = (Throw not_ready, Sample.disconnected).
Proof.
  split; [reflexivity|].
  apply (sendMessage_delivers_or_raises Sample.user (JStr "Hola!") "text"
           Sample.env_up Sample.disconnected).
  reflexivity.
Defined.

Lemma extractMessageContent_by_type_example :
  type Sample.voice_note = JStr "audio"
  ∧ extractMessageContent Sample.voice_note = JStr "[Audio]".
Proof.
  split; [reflexivity|].
  apply (extractMessageContent_by_type Sample.voice_note).
  reflexivity.
Defined.

(** Two messages and a sweep after the first message of a user: the
    session keeps the id it was created with. *)
Lemma one_session_per_user_with_stable_id_example :
  let created :=
    {| phone := Sample.user; conversation_id := "conv_1700000000000_4fzyo82mv";
       last_activity := 1700000000002; context := Sample.browsing |} in
  let before := [ClientReady; ClientMessage Sample.hola] in
  let after := [ClientMessage Sample.voice_note; CleanupTimer;
                Webhook Sample.unsigned; ClientMessage Sample.hola] in
  sessions (run Sample.env_up before initial) !! Sample.user = Some created
  ∧ ∃ s2, sessions (run Sample.env_up after (run Sample.env_up before initial))
            !! Sample.user = Some s2
          ∧ conversation_id s2 = conversation_id created.
Proof.
  intros created before after.
  split; [vm_compute; reflexivity|].
  apply (one_session_per_user_with_stable_id Sample.env_up before after).
  - vm_compute. reflexivity.
  - repeat constructor; vm_compute; eauto.
Defined.

(** The first message of a user: a session is created, the AI agent is
    called with the empty context, the reply goes out as a text. *)
Example first_message_creates_session :
  let w := set_isReady true initial in
  let w' := snd (handleIncomingMessage Sample.hola Sample.env_up w) in
  network w' = [AgentPost Sample.user (JStr "Hola") "conv_1700000000000_4fzyo82mv"
                  (JObj []);
                ClientSend "50688887777@c.us" (JStr "Hola!")]
  ∧ sessions w' !! Sample.user
    = Some {| phone := Sample.user; conversation_id := "conv_1700000000000_4fzyo82mv";
              last_activity := 1700000000002; context := Sample.browsing |}.
Proof. split; vm_compute; reflexivity. Qed.

Example voice_note_goes_to_the_agent_as_Audio :
  calls_since Sample.connected
    (snd (handleIncomingMessage Sample.voice_note Sample.env_up Sample.connected))
  = [AgentPost Sample.user (JStr "[Audio]") "conv_1699999990000_k2j4h5g6f"
       Sample.greeting;
     ClientSend "50688887777@c.us" (JStr "Hola!")].
Proof. vm_compute. reflexivity. Qed.

Example sticker_is_unsupported :
  extractMessageContent Sample.sticker = JStr "[Mensaje no soportado]".
Proof. reflexivity. Qed.

Example formatPhoneNumber_examples :
  formatPhoneNumber "+506 8888-7777" = "50688887777@c.us"
  ∧ formatPhoneNumber "88887777" = "50688887777@c.us".
Proof. split; reflexivity. Qed.

(** The sweep at 1700000000000: the session idle since 1699000000000 goes,
    the one touched ten seconds before stays. *)
Example sweep_of_two_sessions :
  let w' := snd (cleanupSessions Sample.env_up Sample.two_sessions) in
  sessions w' !! "50670001111" = None
  ∧ sessions w' !! Sample.user = Some Sample.session_of_user.
Proof. split; vm_compute; reflexivity. Qed.

(** A session idle for exactly [maxAge] is kept. *)
Example sweep_keeps_at_the_threshold :
  let w := {| sessions := {[ Sample.user := Sample.session_of_user ]};
              isReady := true; network := []; clock_reads := 0; random_draws := 0 |} in
  let env := {| clock := fun _ => 1699999990000 + maxAge;
                random36 := random36 Sample.env_up;
                ai_agent := ai_agent Sample.env_up;
                whatsapp_client := whatsapp_client Sample.env_up;
                graph_api := graph_api Sample.env_up |} in
  sessions (snd (cleanupSessions env w)) !! Sample.user = Some Sample.session_of_user.
Proof. vm_compute. reflexivity. Qed.

Example unsigned_request_example :
  post_webhook Sample.unsigned Sample.env_up Sample.connected
  = (Normal {| status := 401; sent := Some "Unauthorized" |}, Sample.connected).
Proof. reflexivity. Qed.

Example truncated_signature_example :
  post_webhook Sample.truncated_signature Sample.env_up Sample.connected
  = (Normal {| status := 500; sent := None |}, Sample.connected).
Proof. vm_compute. reflexivity. Qed.

(** A signature of the right length that is not the expected one is
    refused with 401. *)
Example wrong_signature_example :
  post_webhook
    {| x_hub_signature_256 :=
         Some "sha256=1111111111111111111111111111111111111111111111111111111111111111";
       req_body := Sample.empty_body |}
    Sample.env_up Sample.connected
  = (Normal {| status := 401; sent := Some "Unauthorized" |}, Sample.connected).
Proof. vm_compute. reflexivity. Qed.

End Examples.

(** ** Further properties *)

Section MoreProperties.

Context `{Runtime}.

Ltac run_monad :=
  unfold try_catch, bind, ret, throw, lift, logger_info, logger_error, logger_warn,
    get_isReady, sessions_get, sessions_set, sessions_delete, client_sendMessage,
    axios_post_agent, axios_post_graph, new_Date, Math_random_toString36 in *;
  simpl in *.

(** *** The signature check accepts one header *)

Lemma decode_char_Buffer_from c rest :
  decode_char (Buffer_from (String c rest)) = Some (c, Buffer_from rest).
Proof. destruct c as [[] [] [] [] [] [] [] []]; reflexivity. Qed.

Lemma Buffer_from_inj s1 s2 : Buffer_from s1 = Buffer_from s2 → s1 = s2.
Proof.
  revert s2. induction s1 as [|c1 r1 IH]; intros [|c2 r2] Heq.
  - reflexivity.
  - apply (f_equal decode_char) in Heq. rewrite decode_char_Buffer_from in Heq.
    discriminate.
  - apply (f_equal decode_char) in Heq. rewrite decode_char_Buffer_from in Heq.
    discriminate.
  - apply (f_equal decode_char) in Heq. rewrite !decode_char_Buffer_from in Heq.
    injection Heq as -> Hrest. f_equal. apply IH, Hrest.
Qed.

Lemma bytes_eqb_eq a b : bytes_eqb a b = true ↔ a = b.
Proof.
  revert b. induction a as [|x a IH]; intros [|y b]; simpl; try (split; done).
  rewrite andb_true_iff, Z.eqb_eq, IH. split.
  - intros [-> ->]. reflexivity.
  - intros [= -> ->]. done.
Qed.

Lemma timingSafeEqual_true a b : timingSafeEqual a b = Normal true ↔ a = b.
Proof.
  unfold timingSafeEqual. destruct (Nat.eqb_spec (length a) (length b)) as [Hlen|Hlen].
  - rewrite <- bytes_eqb_eq. split; [intros [= ->]; done|intros ->; done].
  - split; [discriminate|]. intros ->. done.
Qed.

Lemma verifySignature_true_iff key body signature :
  WHATSAPP_VERIFY_TOKEN = Some key →
  verifySignature body signature = Normal true
  ↔ signature = Some ("sha256=" ++ hmac_sha256_hex key (JSON_stringify body)).
Proof.
  intros Hkey. unfold verifySignature. rewrite Hkey.
  destruct signature as [signature|]; [|split; discriminate].
  destruct (String.eqb_spec signature "") as [->|Hne].
  - split; discriminate.
  - rewrite timingSafeEqual_true. split.
    + intros Heq. f_equal. apply Buffer_from_inj, Heq.
    + intros [= ->]. reflexivity.
Qed.

(** X1: with a verify token configured, [verifySignature] returns true for
    one header value only: [sha256=] followed by the hexadecimal HMAC of
    the stringified body under the token. For no other header, and not
    without header, does it return true. *)
Theorem verifySignature_accepts_only_the_expected key body signature :
  WHATSAPP_VERIFY_TOKEN = Some key →
  verifySignature body signature = Normal true
  ↔ signature = Some ("sha256=" ++ hmac_sha256_hex key (JSON_stringify body)).
Proof. apply verifySignature_true_iff. Qed.

(** *** Phone numbers *)

Lemma all_digits_nil : all_digits "".
Proof. intros c []. Qed.

Lemma all_digits_cons c s : is_digit c = true → all_digits s → all_digits (String c s).
Proof. intros Hc Hs c' [<-|Hin]; [exact Hc|apply Hs, Hin]. Qed.

Lemma all_digits_tail c s : all_digits (String c s) → is_digit c = true ∧ all_digits s.
Proof.
  intros Hall. split; [apply Hall; left; reflexivity|].
  intros c' Hin. apply Hall. right. exact Hin.
Qed.

Lemma remove_non_digits_all_digits s : all_digits (remove_non_digits s).
Proof.
  induction s as [|c s IH]; simpl; [apply all_digits_nil|].
  destruct (is_digit c) eqn:Hc; [apply all_digits_cons; assumption|exact IH].
Qed.

Lemma remove_non_digits_id s : all_digits s → remove_non_digits s = s.
Proof.
  induction s as [|c s IH]; intros Hall; [reflexivity|].
  apply all_digits_tail in Hall as [Hc Hs]. simpl. rewrite Hc, IH by exact Hs.
  reflexivity.
Qed.

Lemma remove_non_digits_app s t :
  remove_non_digits (s ++ t) = remove_non_digits s ++ remove_non_digits t.
Proof.
  induction s as [|c s IH]; simpl; [reflexivity|].
  destruct (is_digit c); simpl; rewrite IH; reflexivity.
Qed.

Lemma prefix_506 s : String.prefix "506" s = true → ∃ d, s = "506" ++ d.
Proof.
  destruct s as [|a [|b [|c d]]]; cbn [String.prefix];
    repeat (match goal with
            | |- context [ascii_dec ?x ?y] => destruct (ascii_dec x y) as [<-|]
            end; cbn [String.prefix]);
    try discriminate.
  intros _. exists d. reflexivity.
Qed.

(** The digits of the number, with the country code in front. *)
Lemma formatPhoneNumber_cleaned phone :
  ∃ digits,
    formatPhoneNumber phone = "506" ++ digits ++ "@c.us"
    ∧ all_digits digits
    ∧ (remove_non_digits phone = "506" ++ digits ∨ remove_non_digits phone = digits).
Proof.
  unfold formatPhoneNumber.
  pose proof (remove_non_digits_all_digits phone) as Hall.
  destruct (String.prefix "506" (remove_non_digits phone)) eqn:Hp; simpl.
  - destruct (prefix_506 _ Hp) as [d Hd]. exists d. rewrite Hd in *.
    split; [reflexivity|]. split; [|left; reflexivity].
    intros c Hin. apply Hall. simpl. auto.
  - exists (remove_non_digits phone). auto.
Qed.

Lemma remove_non_digits_filter s :
  list_ascii_of_string (remove_non_digits s)
  = List.filter is_digit (list_ascii_of_string s).
Proof.
  induction s as [|c s IH]; [reflexivity|].
  simpl. destruct (is_digit c); simpl; rewrite IH; reflexivity.
Qed.

Lemma prefix_506_intro d : String.prefix "506" ("506" ++ d) = true.
Proof.
  change ("506" ++ d) with (String "5" (String "0" (String "6" d))).
  apply String.prefix_correct. destruct d; reflexivity.
Qed.

(** X2: the number is formatted from its digits, which are the digits of
    the input in their order, every other character dropped. When these
    digits start with 506 they are kept as they are; when they do not, and
    only then, the country code 506 is put in front; [@c.us] is put at the
    end. So every formatted number is 506, then digits only, then [@c.us],
    and an input without digits gives [506@c.us]. *)
Theorem formatPhoneNumber_shape phone :
  let cleaned := remove_non_digits phone in
  list_ascii_of_string cleaned = List.filter is_digit (list_ascii_of_string phone)
  ∧ (∀ rest, cleaned = "506" ++ rest → formatPhoneNumber phone = cleaned ++ "@c.us")
  ∧ ((∀ rest, cleaned ≠ "506" ++ rest) →
     formatPhoneNumber phone = "506" ++ cleaned ++ "@c.us")
  ∧ (cleaned = "" → formatPhoneNumber phone = "506@c.us")
  ∧ ∃ digits,
      formatPhoneNumber phone = "506" ++ digits ++ "@c.us"
      ∧ all_digits digits
      ∧ (cleaned = "506" ++ digits ∨ cleaned = digits).
Proof.
  intros cleaned. split; [apply remove_non_digits_filter|].
  split; [|split; [|split; [|apply formatPhoneNumber_cleaned]]].
  - intros rest Hrest. unfold formatPhoneNumber. fold cleaned. cbv zeta.
    rewrite Hrest, prefix_506_intro. reflexivity.
  - intros Hnot. unfold formatPhoneNumber. fold cleaned. cbv zeta.
    destruct (String.prefix "506" cleaned) eqn:Hp.
    + destruct (prefix_506 _ Hp) as [d Hd]. destruct (Hnot d Hd).
    + cbn [negb]. clear.
      change ("506" ++ cleaned) with (String "5" (String "0" (String "6" cleaned))).
      reflexivity.
  - intros Hempty. unfold formatPhoneNumber. fold cleaned. rewrite Hempty.
    reflexivity.
Qed.

(** X3: formatting is idempotent: a number that is already formatted, as
    the [from] of a message of the WhatsApp client is, comes out
    unchanged. *)
Theorem formatPhoneNumber_idempotent phone :
  formatPhoneNumber (formatPhoneNumber phone) = formatPhoneNumber phone.
Proof.
  destruct (formatPhoneNumber_cleaned phone) as (digits & -> & Hall & _).
  unfold formatPhoneNumber.
  assert (Hclean : remove_non_digits ("506" ++ digits ++ "@c.us") = "506" ++ digits).
  { change ("506" ++ digits ++ "@c.us") with (String "5" (String "0" (String "6" (digits ++ "@c.us")))).
    simpl. rewrite remove_non_digits_app, (remove_non_digits_id _ Hall).
    simpl. change ("506" ++ digits) with (String "5" (String "0" (String "6" digits))).
    do 3 f_equal. clear. induction digits as [|c digits IH]; [reflexivity|].
    change (String c digits ++ "") with (String c (digits ++ "")). congruence. }
  assert (Hp : String.prefix "506" ("506" ++ digits) = true)
    by (change ("506" ++ digits) with (String "5" (String "0" (String "6" digits)));
        apply String.prefix_correct; destruct digits; reflexivity).
  rewrite Hclean. cbv zeta. rewrite Hp. reflexivity.
Qed.

(** *** What a turn leaves *)

(** The world a turn ends in, whatever the AI agent and the client do: the
    sender's session is in the store, stamped with the last reading of the
    clock; readiness is as before; the calls are the one to the AI agent,
    then sends through the client, made only when it is ready. *)
Lemma handleIncomingMessage_outcome message env w :
  let user := from message in
  let w' := snd (handleIncomingMessage message env w) in
  let n := (clock_reads w
            + match sessions w !! user with Some _ => 0 | None => 2 end)%nat in
  ∃ final sends,
    sessions w' = <[user := final]> (sessions w)
    ∧ last_activity final = clock env n
    ∧ clock_reads w' = S n
    ∧ isReady w' = isReady w
    ∧ network w'
      = (network w
         ++ AgentPost user (extractMessageContent message) (conversation_id final)
              (prior_context w user) :: sends)%list
    ∧ Forall (λ ev, isReady w = true ∧ ∃ m, ev = ClientSend (formatPhoneNumber user) m)
             sends
    ∧ match sessions w !! user with
      | Some s0 => phone final = phone s0 ∧ conversation_id final = conversation_id s0
      | None =>
          phone final = user
          ∧ conversation_id final
            = "conv_" ++ pretty (clock env (clock_reads w)) ++ "_"
              ++ String.substring 2 9 (random36 env (random_draws w))
      end.
Proof.
  intros user w' n. subst w' n.
  unfold handleIncomingMessage, generateConversationId, processWithAI, prior_context.
  fold user.
  destruct (sessions w !! user) as [s0|] eqn:Hs0; run_monad; rewrite Hs0; simpl;
    (destruct (ai_agent env (length (network w))) as [data|e0]; simpl;
     [destruct (get_prop data "response") as [response|e1]; simpl|
      set (response := JStr fallback_text)]);
    repeat match goal with
      | |- context [sendMessage user ?m "text" env ?w2] =>
          let Hw3 := fresh "Hw3" in
          let w3 := fresh "w3" in
          pose proof (sendMessage_text_world user m env w2) as Hw3;
          destruct (sendMessage user m "text" env w2) as [[?r|?e] w3];
          simpl in Hw3; subst w3; simpl
      | |- context [get_prop data "context"] =>
          destruct (get_prop data "context") as [returned|e3]; simpl
      end;
    destruct (isReady w) eqn:Hready; simpl;
    repeat (progress (simpl; rewrite ?Hready));
    rewrite ?Nat.add_succ_r, ?Nat.add_0_r, ?insert_insert_eq;
    (eexists _, _; split; [reflexivity|]; split; [reflexivity|]; split; [reflexivity|];
     split; [reflexivity|];
     split; [rewrite <- ?app_assoc; simpl; reflexivity|];
     split; [|split; reflexivity]).
  all: repeat first [exact I | apply Forall_nil | apply Forall_cons | split | eexists];
    reflexivity.
Qed.




(** *** A delivery on the webhook *)

Lemma handleIncomingMessage_completes message env w :
  fst (handleIncomingMessage message env w) = Normal tt.
Proof.
  destruct (handleIncomingMessage_turn message env w)
    as (session & w1 & _ & _ & _ & _ & _ & _ & Hturn).
  cbv zeta in Hturn. rewrite Hturn.
  repeat match goal with
         | |- context [match ?x with _ => _ end] => destruct x
         end; reflexivity.
Qed.

Lemma for_of_completes {A} (body : A → M unit) xs env w :
  (∀ x env w, fst (body x env w) = Normal tt) →
  for_of xs body env w = (Normal tt, fold_left (λ w x, snd (body x env w)) xs w).
Proof.
  intros Hbody. revert w. induction xs as [|x rest IH]; intros w; [reflexivity|].
  simpl. unfold bind. specialize (Hbody x env w).
  destruct (body x env w) as [[[]|e] w1]; simpl in *; [apply IH|discriminate].
Qed.

Lemma handle_all_app env ms1 ms2 w :
  handle_all env (ms1 ++ ms2)%list w = handle_all env ms2 (handle_all env ms1 w).
Proof. unfold handle_all. apply fold_left_app. Qed.

Lemma handle_all_cons env m ms w :
  handle_all env (m :: ms) w = handle_all env ms (snd (handleIncomingMessage m env w)).
Proof. reflexivity. Qed.

Lemma for_of_messages env ms w :
  for_of ms handleIncomingMessage env w = (Normal tt, handle_all env ms w).
Proof. apply for_of_completes, handleIncomingMessage_completes. Qed.

Lemma for_of_elements env ms w :
  for_of ms handleIncomingElement env w = (Normal tt, handle_all env (omap id ms) w).
Proof.
  revert w. induction ms as [|[m|] rest IH]; intros w; [reflexivity| |].
  - change (omap id (Some m :: rest)) with (m :: omap id rest).
    rewrite handle_all_cons.
    cbn [for_of handleIncomingElement]. unfold bind.
    pose proof (handleIncomingMessage_completes m env w) as Hdone.
    destruct (handleIncomingMessage m env w) as [[[]|e] w1];
      simpl in Hdone; [|discriminate].
    rewrite IH. reflexivity.
  - cbn [for_of handleIncomingElement]. unfold bind. simpl. apply IH.
Qed.

(** A loop whose body either gets through an element after the turns of
    its messages or throws a [TypeError] after those of some: the loop
    stops at the first throw. *)
Lemma for_of_walk {A} (body : A → M unit) (f : A → list Message * bool) xs env w :
  (∀ x env w,
     body x env w
     = (if snd (f x) then Normal tt else Throw TypeError, handle_all env (fst (f x)) w)) →
  for_of xs body env w
  = (if snd (walk f xs) then Normal tt else Throw TypeError,
     handle_all env (fst (walk f xs)) w).
Proof.
  intros Hbody. revert w. induction xs as [|x rest IH]; intros w; [reflexivity|].
  cbn [for_of walk]. unfold bind. rewrite Hbody.
  destruct (snd (f x)); [|reflexivity].
  rewrite IH. cbn [fst snd]. rewrite handle_all_app. reflexivity.
Qed.

Lemma for_of_changes env cs w :
  for_of cs (fun change =>
    let* value :=
      match value change with
      | Some value => ret value
      | None => throw TypeError
      end in
    match messages value with
    | Some (m :: ms) => for_of (m :: ms) handleIncomingElement
    | _ => ret tt
    end) env w
  = (if snd (walk walk_change cs) then Normal tt else Throw TypeError,
     handle_all env (fst (walk walk_change cs)) w).
Proof.
  apply for_of_walk. clear. intros c env w.
  unfold walk_change, bind. destruct (value c) as [v|]; [|reflexivity].
  cbn [ret fst snd]. unfold messages_of_value.
  destruct (messages v) as [[|m ms]|]; try reflexivity.
  apply for_of_elements.
Qed.

Lemma for_of_entries env es w :
  for_of es (fun webhookEntry =>
    let* changes :=
      match changes webhookEntry with
      | Some changes => ret changes
      | None => throw TypeError
      end in
    for_of changes (fun change =>
      let* value :=
        match value change with
        | Some value => ret value
        | None => throw TypeError
        end in
      match messages value with
      | Some (m :: ms) => for_of (m :: ms) handleIncomingElement
      | _ => ret tt
      end)) env w
  = (if snd (handled es) then Normal tt else Throw TypeError,
     handle_all env (fst (handled es)) w).
Proof.
  unfold handled. apply for_of_walk. clear. intros e env w.
  unfold walk_entry. unfold bind at 1. destruct (changes e) as [cs|]; [|reflexivity].
  cbn [ret]. apply for_of_changes.
Qed.

(** A request that verifies: the route answers 200 after the turns of all
    the messages it handles when it gets through the delivery, 500 after
    the turns of those it handled when an entry or a change stops it, and
    500 at once when the body has no [entry]. *)
Lemma post_webhook_verified req env w :
  verifySignature (req_body req) (x_hub_signature_256 req) = Normal true →
  post_webhook req env w
  = match entry (req_body req) with
    | Some entries =>
        (Normal (if snd (handled entries)
                 then res_status_send 200 "OK"
                 else res_status_send 500 "Internal Server Error"),
         handle_all env (fst (handled entries)) w)
    | None => (Normal (res_status_send 500 "Internal Server Error"), w)
    end.
Proof.
  intros Hok. unfold post_webhook, webhook_middleware, webhook_route.
  unfold try_catch at 1. unfold bind at 1. unfold lift. rewrite Hok.
  unfold try_catch. unfold bind at 1 2.
  destruct (entry (req_body req)) as [entries|]; [|reflexivity].
  unfold ret at 1. rewrite for_of_entries.
  destruct (snd (handled entries)); reflexivity.
Qed.

(** What the route handles is a first part of what the delivery holds,
    and all of it when no entry and no change stops the route. *)
Lemma walk_prefix {A} (f : A → list Message * bool) (all : A → list Message) xs :
  (∀ x, fst (f x) `prefix_of` all x) →
  (∀ x, snd (f x) = true → fst (f x) = all x) →
  fst (walk f xs) `prefix_of` concat (List.map all xs)
  ∧ (snd (walk f xs) = true → fst (walk f xs) = concat (List.map all xs)).
Proof.
  intros Hpre Hall. induction xs as [|x rest [IHpre IHall]]; [done|].
  cbn [walk List.map concat]. destruct (snd (f x)) eqn:Hx; cbn [fst snd].
  - rewrite (Hall x Hx). split.
    + apply prefix_app, IHpre.
    + intros Hrest. rewrite (IHall Hrest). reflexivity.
  - split; [|discriminate]. etrans; [apply Hpre|]. apply prefix_app_r. done.
Qed.

Lemma handled_prefix entries :
  fst (handled entries) `prefix_of` messages_of_entries entries
  ∧ (snd (handled entries) = true → fst (handled entries) = messages_of_entries entries).
Proof.
  unfold handled, messages_of_entries.
  apply (walk_prefix walk_entry).
  - intros e. unfold walk_entry. destruct (changes e) as [cs|]; [|apply prefix_nil].
    apply (walk_prefix walk_change).
    + intros c. unfold walk_change, messages_of_change.
      destruct (value c); [done|apply prefix_nil].
    + intros c. unfold walk_change, messages_of_change. destruct (value c); done.
  - intros e. unfold walk_entry. destruct (changes e) as [cs|]; [|done].
    apply (walk_prefix walk_change).
    + intros c. unfold walk_change, messages_of_change.
      destruct (value c); [done|apply prefix_nil].
    + intros c. unfold walk_change, messages_of_change. destruct (value c); done.
Qed.









(** X8: with a verify token configured, a webhook request whose signature
    header is anything but the expected signature, or is missing, is not
    processed at all: the state is unchanged, no call is made, and the
    answer is 401 or 500, never 200. *)
Theorem only_the_expected_signature_is_processed key req env w :
  WHATSAPP_VERIFY_TOKEN = Some key →
  x_hub_signature_256 req
  ≠ Some ("sha256=" ++ hmac_sha256_hex key (JSON_stringify (req_body req))) →
  snd (post_webhook req env w) = w
  ∧ ∃ response, fst (post_webhook req env w) = Normal response
                ∧ (status response = 401 ∨ status response = 500).
Proof.
  intros Hkey Hother.
  assert (Hno : verifySignature (req_body req) (x_hub_signature_256 req) ≠ Normal true)
    by (rewrite (verifySignature_true_iff key) by exact Hkey; exact Hother).
  rewrite (unverified_request_changes_nothing req env w Hno). simpl.
  split; [reflexivity|]. eexists. split; [reflexivity|].
  destruct (verifySignature _ _); simpl; auto.
Qed.

(** *** Readiness and the calls of a run *)

Lemma turn_like_refl w : turn_like w w.
Proof. split; [reflexivity|]. exists []. rewrite app_nil_r. split; constructor. Qed.

Lemma turn_like_trans w1 w2 w3 : turn_like w1 w2 → turn_like w2 w3 → turn_like w1 w3.
Proof.
  intros (Hr12 & calls12 & Hn12 & Hall12) (Hr23 & calls23 & Hn23 & Hall23).
  split; [congruence|]. exists (calls12 ++ calls23)%list.
  split; [rewrite Hn23, Hn12, app_assoc; reflexivity|].
  apply Forall_app. split; [exact Hall12|]. rewrite <- Hr12. exact Hall23.
Qed.

Lemma turn_like_handleIncomingMessage message env w :
  turn_like w (snd (handleIncomingMessage message env w)).
Proof.
  destruct (handleIncomingMessage_outcome message env w)
    as (final & sends & _ & _ & _ & Hr & Hn & Hsends & _).
  split; [exact Hr|]. eexists. split; [exact Hn|].
  constructor; [exact I|].
  eapply Forall_impl; [exact Hsends|]. intros ev (Hready & m & ->). exact Hready.
Qed.

Lemma turn_like_handle_all env ms w : turn_like w (handle_all env ms w).
Proof.
  revert w. induction ms as [|m ms IH]; intros w; [apply turn_like_refl|].
  rewrite handle_all_cons.
  eapply turn_like_trans; [apply turn_like_handleIncomingMessage|apply IH].
Qed.

Lemma turn_like_post_webhook req env w : turn_like w (snd (post_webhook req env w)).
Proof.
  destruct (verifySignature (req_body req) (x_hub_signature_256 req)) as [[|]|e] eqn:Hv.
  - rewrite post_webhook_verified by exact Hv.
    destruct (entry (req_body req)); [apply turn_like_handle_all|apply turn_like_refl].
  - rewrite unverified_request_changes_nothing by (rewrite Hv; discriminate).
    apply turn_like_refl.
  - rewrite unverified_request_changes_nothing by (rewrite Hv; discriminate).
    apply turn_like_refl.
Qed.

(** One input: readiness changes by the client events alone, and the calls
    made are those of turns. *)
Lemma step_readiness_and_calls env w i :
  isReady (step env w i)
  = match i with
    | ClientReady => true
    | ClientAuthFailure | ClientDisconnected => false
    | _ => isReady w
    end
  ∧ ∃ calls, network (step env w i) = (network w ++ calls)%list
             ∧ Forall (turn_call (isReady w)) calls.
Proof.
  unfold step. destruct i as [req|message| | | |]; cbn [dispatch].
  - assert (Hsame : snd ((post_webhook req ;; ret tt) env w) = snd (post_webhook req env w))
      by (unfold bind, ret; destruct (post_webhook req env w) as [[r|e] w1]; reflexivity).
    rewrite Hsame. apply turn_like_post_webhook.
  - apply turn_like_handleIncomingMessage.
  - simpl. split; [reflexivity|]. exists []. rewrite app_nil_r. split; constructor.
  - simpl. split; [reflexivity|]. exists []. rewrite app_nil_r. split; constructor.
  - simpl. split; [reflexivity|]. exists []. rewrite app_nil_r. split; constructor.
  - rewrite cleanupSessions_run. simpl. split; [reflexivity|].
    exists []. rewrite app_nil_r. split; constructor.
Qed.

Lemma run_readiness env inputs w :
  isReady (run env inputs w) = readiness_after inputs (isReady w).
Proof.
  revert w. induction inputs as [|i rest IH]; intros w; [reflexivity|].
  unfold run, readiness_after in *. cbn [fold_left]. rewrite IH.
  destruct (step_readiness_and_calls env w i) as [-> _]. reflexivity.
Qed.

(** X9: after any sequence of inputs the client counts as ready exactly
    when the last client event among them was [ready] (or, without any,
    when it was ready before): messages, webhook requests and sweeps never
    change readiness. [/health] reports this value and the number of
    sessions, and changes nothing. *)
Theorem readiness_follows_the_client_events env inputs w :
  let w' := run env inputs w in
  isReady w' = readiness_after inputs (isReady w)
  ∧ health_route env w'
    = (Normal {| report_status := "OK";
                 whatsapp_ready := readiness_after inputs (isReady w);
                 session_count := size (sessions w') |}, w').
Proof.
  intros w'. split; [apply run_readiness|].
  unfold health_route. subst w'. rewrite run_readiness. reflexivity.
Qed.

Lemma run_calls_before_ready env inputs w :
  isReady w = false →
  ClientReady ∉ inputs →
  ∃ calls, network (run env inputs w) = (network w ++ calls)%list
           ∧ Forall (turn_call false) calls.
Proof.
  revert w. induction inputs as [|i rest IH]; intros w Hnot Hnone.
  - exists []. rewrite app_nil_r. split; [reflexivity|constructor].
  - apply not_elem_of_cons in Hnone as [Hi Hrest].
    destruct (step_readiness_and_calls env w i) as (Hr & calls1 & Hn1 & Hall1).
    assert (Hnot1 : isReady (step env w i) = false)
      by (rewrite Hr; destruct i; try exact Hnot; try reflexivity; done).
    destruct (IH (step env w i) Hnot1 Hrest) as (calls2 & Hn2 & Hall2).
    exists (calls1 ++ calls2)%list. unfold run in *. cbn [fold_left].
    split; [rewrite Hn2, Hn1, app_assoc; reflexivity|].
    apply Forall_app. rewrite Hnot in Hall1. auto.
Qed.

(** X10: as long as no [ready] event has come, nothing goes out to
    WhatsApp: from a state in which the client is not ready, any sequence
    of messages, webhook requests, failures, disconnections and sweeps
    makes no call but calls to the AI agent. *)
Theorem nothing_is_sent_before_ready env inputs w :
  isReady w = false →
  ClientReady ∉ inputs →
  Forall (λ ev, ∃ user content id ctx, ev = AgentPost user content id ctx)
         (calls_since w (run env inputs w)).
Proof.
  intros Hnot Hnone.
  destruct (run_calls_before_ready env inputs w Hnot Hnone) as (calls & Hn & Hall).
  rewrite (calls_since_app _ _ _ Hn).
  eapply Forall_impl; [exact Hall|].
  intros [u m id c|to m|to t p] Hcall; simpl in Hcall; [eauto|discriminate|done].
Qed.

Lemma run_calls env inputs w :
  ∃ calls, network (run env inputs w) = (network w ++ calls)%list
           ∧ Forall (λ ev, ∀ to type payload, ev ≠ GraphPost to type payload) calls.
Proof.
  revert w. induction inputs as [|i rest IH]; intros w.
  - exists []. rewrite app_nil_r. split; [reflexivity|constructor].
  - destruct (step_readiness_and_calls env w i) as (_ & calls1 & Hn1 & Hall1).
    destruct (IH (step env w i)) as (calls2 & Hn2 & Hall2).
    exists (calls1 ++ calls2)%list. unfold run in *. cbn [fold_left].
    split; [rewrite Hn2, Hn1, app_assoc; reflexivity|].
    apply Forall_app. split; [|exact Hall2].
    eapply Forall_impl; [exact Hall1|].
    intros [u m id c|to m|to t p] Hcall; simpl in Hcall; [done|done|done].
Qed.

(** X11: no message, webhook request, client event or sweep ever makes the
    bot call the Graph API: replies and apologies go out as texts through
    the WhatsApp client, and button and list messages are sent only by
    the methods that are called from outside. *)
Theorem inputs_never_reach_the_graph_api env inputs w :
  Forall (λ ev, ∀ to type payload, ev ≠ GraphPost to type payload)
         (calls_since w (run env inputs w)).
Proof.
  destruct (run_calls env inputs w) as (calls & Hn & Hall).
  rewrite (calls_since_app _ _ _ Hn). exact Hall.
Qed.

(** *** Button and list messages *)

Lemma get_prop_by_nullish v k :
  get_prop v k = if nullish v then Throw TypeError else Normal (prop v k).
Proof. unfold prop. destruct v; reflexivity. Qed.

Lemma map_completion_by_nullish (f : JSValue → Completion JSValue) g xs :
  (∀ x, f x = if nullish x then Throw TypeError else Normal (g x)) →
  map_completion f xs
  = if forallb (λ x, negb (nullish x)) xs then Normal (List.map g xs)
    else Throw TypeError.
Proof.
  intros Hf. induction xs as [|x rest IH]; [reflexivity|].
  simpl. rewrite Hf, IH. destruct (nullish x); simpl; [reflexivity|].
  destruct (forallb _ rest); reflexivity.
Qed.

Lemma sendButtonMessage_eq phone messageData env w :
  sendButtonMessage phone messageData env w
  = match get_prop messageData "buttons" with
    | Normal (JArr buttons) =>
        if forallb (λ b, negb (nullish b)) buttons then
          (graph_api env (length (network w)),
           record_call
             (GraphPost phone "button"
                (JObj [("text", prop messageData "text");
                       ("footer", JStr "Shaymee - Tu tienda de confianza");
                       ("buttons", JArr (List.map button_of buttons))])) w)
        else (Throw TypeError, w)
    | _ => (Throw TypeError, w)
    end.
Proof.
  unfold sendButtonMessage. run_monad. rewrite !(get_prop_by_nullish messageData).
  destruct (nullish messageData); [reflexivity|].
  destruct (prop messageData "buttons") as [| | | | |buttons|]; try reflexivity.
  unfold array_map.
  rewrite (map_completion_by_nullish _ button_of)
    by (intros b; unfold button_of; rewrite !(get_prop_by_nullish b);
        destruct (nullish b); reflexivity).
  destruct (forallb _ buttons); [|reflexivity].
  rewrite sendWhatsAppBusinessMessage_eq.
  destruct (graph_api env (length (network w))); reflexivity.
Qed.

Lemma sendListMessage_eq phone messageData env w :
  sendListMessage phone messageData env w
  = if nullish messageData then (Throw TypeError, w)
    else
      (graph_api env (length (network w)),
       record_call
         (GraphPost phone "list"
            (JObj [("text", prop messageData "text");
                   ("footer", JStr "Shaymee - Tu tienda de confianza");
                   ("sections", prop messageData "sections")])) w).
Proof.
  unfold sendListMessage. run_monad. rewrite !(get_prop_by_nullish messageData).
  destruct (nullish messageData); [reflexivity|].
  rewrite sendWhatsAppBusinessMessage_eq.
  destruct (graph_api env (length (network w))); reflexivity.
Qed.

(** X12: [sendButtonMessage] posts to the Graph API exactly when the
    message has an array of buttons without a [null] or [undefined] among
    them. It then posts the text, the fixed footer and one [{ id, body }]
    for every [{ id, text }], in the same order, and returns or rethrows
    what the Graph API answers. In every other case it throws a
    [TypeError] and nothing is posted. *)
Theorem sendButtonMessage_posts_well_formed_only phone messageData env w :
  sendButtonMessage phone messageData env w
  = match get_prop messageData "buttons" with
    | Normal (JArr buttons) =>
        if forallb (λ b, negb (nullish b)) buttons then
          (graph_api env (length (network w)),
           record_call
             (GraphPost phone "button"
                (JObj [("text", prop messageData "text");
                       ("footer", JStr "Shaymee - Tu tienda de confianza");
                       ("buttons", JArr (List.map button_of buttons))])) w)
        else (Throw TypeError, w)
    | _ => (Throw TypeError, w)
    end.
Proof. apply sendButtonMessage_eq. Qed.

(** X13: [sendProductMenu] does not go through [sendMessage]: whether or
    not the client is ready, and with the phone number as it was given,
    not formatted, it posts one list message with a single section that
    has one row per category, in their order. Categories that are not an
    array, or that hold a [null] or [undefined], make it throw a
    [TypeError] with nothing posted. *)
Theorem sendProductMenu_posts_unchecked phone categories env w :
  sendProductMenu phone categories env w
  = match categories with
    | JArr cats =>
        if forallb (λ cat, negb (nullish cat)) cats then
          (graph_api env (length (network w)),
           record_call (GraphPost phone "list" (product_menu (List.map row_of cats))) w)
        else (Throw TypeError, w)
    | _ => (Throw TypeError, w)
    end.
Proof.
  unfold sendProductMenu. unfold bind, lift.
  destruct categories as [| | | | |cats|]; try reflexivity.
  unfold array_map.
  rewrite (map_completion_by_nullish _ row_of)
    by (intros cat; unfold row_of; rewrite !(get_prop_by_nullish cat);
        destruct (nullish cat); reflexivity).
  destruct (forallb _ cats); [|reflexivity].
  rewrite sendListMessage_eq. reflexivity.
Qed.

Lemma over_graph_api_cases type :
  over_graph_api type = true → type = "button" ∨ type = "list".
Proof.
  unfold over_graph_api. intros Ht. apply orb_true_iff in Ht as [Ht|Ht];
    apply String.eqb_eq in Ht; auto.
Qed.

(** [sendMessage] with the client ready, for a message that goes over the
    Graph API. *)
Lemma sendMessage_graph phone message type env w :
  isReady w = true →
  over_graph_api type = true →
  sendMessage phone message type env w
  = let sent := if String.eqb type "button"
                then sendButtonMessage (formatPhoneNumber phone) message env w
                else sendListMessage (formatPhoneNumber phone) message env w in
    (delivery_result (fst sent), snd sent).
Proof.
  intros Hr Ht.
  destruct (over_graph_api_cases type Ht) as [-> | ->];
    unfold sendMessage; run_monad; rewrite Hr; simpl;
    match goal with
    | |- context [?send (formatPhoneNumber phone) message env w] =>
        destruct (send (formatPhoneNumber phone) message env w) as [[result|e] w']
    end; try reflexivity;
    unfold delivery_result, id_serialized; simpl;
    (destruct (get_prop result "id") as [id|e]; [|reflexivity]);
    destruct (get_prop id "_serialized"); reflexivity.
Qed.

(** X14: a button or list message for which the Graph API answers with a
    value that has no [id] never succeeds through [sendMessage]: the call
    throws a [TypeError], and for a list message that is not nullish it
    does so after the message has been posted. *)
Theorem interactive_message_without_id_fails phone message type result env w :
  isReady w = true →
  over_graph_api type = true →
  graph_api env (length (network w)) = Normal result →
  get_prop result "id" = Normal JUndefined →
  fst (sendMessage phone message type env w) = Throw TypeError
  ∧ (type = "list" → nullish message = false →
     snd (sendMessage phone message type env w)
     = record_call
         (GraphPost (formatPhoneNumber phone) "list"
            (JObj [("text", prop message "text");
                   ("footer", JStr "Shaymee - Tu tienda de confianza");
                   ("sections", prop message "sections")])) w).
Proof.
  intros Hr Ht Hanswer Hid. rewrite sendMessage_graph by assumption.
  assert (Hres : delivery_result (Normal result) = Throw TypeError)
    by (unfold delivery_result, id_serialized; rewrite Hid; reflexivity).
  destruct (over_graph_api_cases type Ht) as [-> | ->]; simpl.
  - rewrite sendButtonMessage_eq. split; [|discriminate].
    destruct (get_prop message "buttons") as [[| | | | |buttons|]|e]; try reflexivity.
    destruct (forallb _ buttons); [|reflexivity].
    simpl. rewrite Hanswer. exact Hres.
  - rewrite sendListMessage_eq. split.
    + destruct (nullish message); [reflexivity|]. simpl. rewrite Hanswer. exact Hres.
    + intros _ ->. reflexivity.
Qed.

(** *** The route [/send] *)

Lemma sendMessage_world phone message type env w :
  snd (sendMessage phone message type env w) = w
  ∨ ∃ ev, snd (sendMessage phone message type env w) = record_call ev w.
Proof.
  destruct (isReady w) eqn:Hr; [|rewrite sendMessage_not_ready by exact Hr; auto].
  destruct (over_graph_api type) eqn:Ht.
  - rewrite sendMessage_graph by assumption. simpl.
    destruct (String.eqb type "button").
    + rewrite sendButtonMessage_eq.
      destruct (get_prop message "buttons") as [[| | | | |buttons|]|e]; auto.
      destruct (forallb _ buttons); simpl; eauto.
    + rewrite sendListMessage_eq. destruct (nullish message); simpl; eauto.
  - rewrite sendMessage_client by assumption. simpl. eauto.
Qed.

(** X15: [/send] always answers. The answer is the result
    [{ success: true, message_id }] of a delivered message, or the status
    500 with the error; while the client is not ready it is 500 with
    [WhatsApp client not ready] and nothing is attempted. The route makes
    at most one network call and never touches the sessions or the
    readiness. *)
Theorem send_route_always_answers b env w :
  ∃ reply w',
    send_route b env w = (Normal reply, w')
    ∧ ((∃ id, reply = Json (delivered id)) ∨ (∃ e, reply = JsonError 500 e))
    ∧ (w' = w ∨ ∃ ev, w' = record_call ev w)
    ∧ sessions w' = sessions w
    ∧ isReady w' = isReady w
    ∧ (isReady w = false → reply = JsonError 500 not_ready ∧ w' = w).
Proof.
  unfold send_route. run_monad.
  set (type := default "text" (send_type b)).
  pose proof (sendMessage_world (send_phone b) (send_message b) type env w) as Hw.
  pose proof (sendMessage_not_ready (send_phone b) (send_message b) type env w) as Hnr.
  destruct (sendMessage_cases (send_phone b) (send_message b) type env w)
    as [(e & w' & Hs)|(ev & result & id & _ & _ & Hs)];
    rewrite Hs in *; simpl in *; eexists _, _; (split; [reflexivity|]).
  - split; [eauto|]. split; [exact Hw|].
    split; [destruct Hw as [->|[ev ->]]; reflexivity|].
    split; [destruct Hw as [->|[ev ->]]; reflexivity|].
    intros Hr. specialize (Hnr Hr). injection Hnr as -> ->. auto.
  - split; [eauto|]. split; [eauto|]. split; [reflexivity|]. split; [reflexivity|].
    intros Hr. specialize (Hnr Hr). discriminate.
Qed.

(** *** Conversation ids *)

Lemma pretty_N_char_not_underscore x : pretty_N_char x ≠ "_"%char.
Proof. unfold pretty_N_char. repeat case_match; discriminate. Qed.

Lemma free_of_cons c d s : d ≠ c → free_of c s → free_of c (String d s).
Proof. intros Hd Hs [Heq|Hin]; [exact (Hd Heq)|exact (Hs Hin)]. Qed.

Lemma pretty_N_go_free x s : free_of "_" s → free_of "_" (pretty_N_go x s).
Proof.
  revert s. induction (N.lt_wf_0 x) as [x _ IH]; intros s Hs.
  destruct (decide (x = 0)%N) as [->|Hx]; [rewrite pretty_N_go_0; exact Hs|].
  rewrite pretty_N_go_step by lia. apply IH; [apply N.div_lt; lia|].
  apply free_of_cons; [apply pretty_N_char_not_underscore|exact Hs].
Qed.

Lemma pretty_N_free (x : N) : free_of "_" (pretty x).
Proof.
  unfold pretty, pretty_N. case_decide.
  - apply free_of_cons; [discriminate|]. intros [].
  - apply pretty_N_go_free. intros [].
Qed.

Lemma pretty_Z_free (z : Z) : free_of "_" (pretty z).
Proof.
  destruct z as [|p|p]; unfold pretty, pretty_Z.
  - apply free_of_cons; [discriminate|]. intros [].
  - apply pretty_N_free.
  - change ("-" ++ pretty p) with (String "-" (pretty p)).
    apply free_of_cons; [discriminate|]. apply pretty_N_free.
Qed.

Lemma free_of_tail c d s : free_of c (String d s) → d ≠ c ∧ free_of c s.
Proof.
  intros Hfree. split; [intros Heq; apply Hfree; left; exact Heq|].
  intros Hin. apply Hfree. right. exact Hin.
Qed.

(** Two strings without underscore, each followed by an underscore and
    more, are equal when the whole strings are. *)
Lemma split_at_underscore a b r1 r2 :
  free_of "_" a → free_of "_" b →
  a ++ String "_" r1 = b ++ String "_" r2 → a = b.
Proof.
  revert b. induction a as [|c a IH]; intros [|d b] Ha Hb Heq.
  - reflexivity.
  - change ("" ++ String "_" r1) with (String "_" r1) in Heq.
    change (String d b ++ String "_" r2) with (String d (b ++ String "_" r2)) in Heq.
    injection Heq as <- _. apply free_of_tail in Hb as [Hd _]. done.
  - change ("" ++ String "_" r2) with (String "_" r2) in Heq.
    change (String c a ++ String "_" r1) with (String c (a ++ String "_" r1)) in Heq.
    injection Heq as -> _. apply free_of_tail in Ha as [Hc _]. done.
  - change (String c a ++ String "_" r1) with (String c (a ++ String "_" r1)) in Heq.
    change (String d b ++ String "_" r2) with (String d (b ++ String "_" r2)) in Heq.
    injection Heq as -> Heq.
    apply free_of_tail in Ha as [_ Ha]. apply free_of_tail in Hb as [_ Hb].
    f_equal. apply IH; assumption.
Qed.

Lemma generateConversationId_eq env w :
  generateConversationId env w
  = (Normal ("conv_" ++ pretty (clock env (clock_reads w)) ++ "_"
             ++ String.substring 2 9 (random36 env (random_draws w))),
     tick_random (tick_clock w)).
Proof. reflexivity. Qed.

(** X16: conversation ids made at different readings of the clock are
    different, whatever [Math.random] gives: the time is part of the id. *)
Theorem conversation_ids_differ_with_the_clock env w1 w2 :
  clock env (clock_reads w1) ≠ clock env (clock_reads w2) →
  fst (generateConversationId env w1) ≠ fst (generateConversationId env w2).
Proof.
  intros Hclock. rewrite !generateConversationId_eq. simpl. intros [= Heq].
  apply Hclock. apply (inj pretty).
  eapply split_at_underscore; [apply pretty_Z_free|apply pretty_Z_free|exact Heq].
Qed.

(** *** Frames *)

Lemma handle_all_other_sessions env ms w user :
  user ∉ List.map from ms →
  sessions (handle_all env ms w) !! user = sessions w !! user.
Proof.
  revert w. induction ms as [|m ms IH]; intros w Hnot; [reflexivity|].
  cbn [List.map] in Hnot. apply not_elem_of_cons in Hnot as [Hne Hrest].
  rewrite handle_all_cons, IH by exact Hrest.
  destruct (handleIncomingMessage_outcome m env w) as (final & sends & Hs & _).
  rewrite Hs. apply lookup_insert_ne. done.
Qed.

(** X17: a turn, and so a whole verified delivery, touches no session but
    those of the senders of its messages: the session of every other user
    is after it what it was before, and a user without session and without
    message has none after. *)
Theorem delivery_touches_only_its_senders req entries env w user :
  verifySignature (req_body req) (x_hub_signature_256 req) = Normal true →
  entry (req_body req) = Some entries →
  user ∉ List.map from (messages_of_entries entries) →
  sessions (snd (post_webhook req env w)) !! user = sessions w !! user.
Proof.
  intros Hok Hentry Hnot. rewrite post_webhook_verified, Hentry by exact Hok.
  cbn [snd]. apply handle_all_other_sessions.
  destruct (handled_prefix entries) as [[rest Hrest] _].
  rewrite Hrest, map_app, not_elem_of_app in Hnot. apply Hnot.
Qed.

(** X18: sweeps compose: when the clock has not gone back between two
    sweeps, the sessions left after both are those of the store before the
    first that are not idle at the time of the second. *)
Theorem later_sweep_subsumes_earlier env w :
  let w1 := snd (cleanupSessions env w) in
  let later := clock env (clock_reads w1) in
  clock env (clock_reads w) <= later →
  ∀ user,
    sessions (snd (cleanupSessions env w1)) !! user
    = match sessions w !! user with
      | Some session =>
          if later - last_activity session >? maxAge then None else Some session
      | None => None
      end.
Proof.
  intros w1 later Hclock user. subst later. rewrite cleanupSessions_run. simpl.
  rewrite sweep_lookup. subst w1. rewrite cleanupSessions_run in *. simpl in *.
  rewrite sweep_lookup.
  destruct (sessions w !! user) as [session|]; [|reflexivity].
  destruct (clock env (clock_reads w) - last_activity session >? maxAge) eqn:Hidle1;
    [|reflexivity].
  apply Z.gtb_lt in Hidle1.
  assert (Hidle2 : (clock env (S (clock_reads w)) - last_activity session >? maxAge)
                   = true) by (apply Z.gtb_lt; lia).
  rewrite Hidle2. reflexivity.
Qed.

End MoreProperties.

(** ** Further examples *)

Section MoreExamples.

#[local] Existing Instance Sample.runtime.

Lemma verifySignature_accepts_only_the_expected_example :
  WHATSAPP_VERIFY_TOKEN = Some "secret"
  ∧ verifySignature (req_body MoreSample.signed) (Some MoreSample.expected_signature)
    = Normal true.
Proof.
  split; [reflexivity|].
  apply (verifySignature_accepts_only_the_expected "secret"
           (req_body MoreSample.signed) (Some MoreSample.expected_signature));
    reflexivity.
Defined.



Lemma formatPhoneNumber_shape_example :
  (remove_non_digits "+506 8888-7777" = "506" ++ "88887777"
   ∧ formatPhoneNumber "+506 8888-7777" = "50688887777@c.us")
  ∧ ((∀ rest, remove_non_digits "8888-7777" ≠ "506" ++ rest)
     ∧ formatPhoneNumber "8888-7777" = "50688887777@c.us")
  ∧ (remove_non_digits "n/a" = "" ∧ formatPhoneNumber "n/a" = "506@c.us").
Proof.
  assert (Hnot : ∀ rest, remove_non_digits "8888-7777" ≠ "506" ++ rest)
    by (intros rest Heq; vm_compute in Heq; discriminate).
  split; [split; [reflexivity|]|split; [split; [exact Hnot|]|split; [reflexivity|]]].
  - destruct (formatPhoneNumber_shape "+506 8888-7777") as (_ & Hkept & _).
    exact (Hkept "88887777" eq_refl).
  - destruct (formatPhoneNumber_shape "8888-7777") as (_ & _ & Hput & _).
    exact (Hput Hnot).
  - destruct (formatPhoneNumber_shape "n/a") as (_ & _ & _ & Hempty & _).
    exact (Hempty eq_refl).
Defined.



(** The sample delivery of two messages is well formed: both go to the
    agent and the answer is 200. *)
Example signed_delivery_is_handled_whole :
  post_webhook MoreSample.signed Sample.env_up Sample.connected
  = (Normal (res_status_send 200 "OK"),
     handle_all Sample.env_up [Sample.hola; Sample.voice_note] Sample.connected)
  ∧ forwarded (calls_since Sample.connected
                 (snd (post_webhook MoreSample.signed Sample.env_agent_down
                         Sample.connected)))
    = [(Sample.user, JStr "Hola"); (Sample.user, JStr "[Audio]")].
Proof. split; vm_compute; reflexivity. Qed.

Lemma only_the_expected_signature_is_processed_example :
  x_hub_signature_256 MoreSample.forged ≠ Some MoreSample.expected_signature
  ∧ snd (post_webhook MoreSample.forged Sample.env_up Sample.connected)
    = Sample.connected.
Proof.
  split; [discriminate|].
  apply (only_the_expected_signature_is_processed "secret" MoreSample.forged
           Sample.env_up Sample.connected); [reflexivity|discriminate].
Defined.

Lemma nothing_is_sent_before_ready_example :
  let inputs := [ClientMessage Sample.hola; Webhook MoreSample.signed;
                 ClientDisconnected; CleanupTimer] in
  isReady initial = false
  ∧ Forall (λ ev, ∃ user content id ctx, ev = AgentPost user content id ctx)
           (calls_since initial (run Sample.env_up inputs initial)).
Proof.
  intros inputs. split; [reflexivity|].
  apply (nothing_is_sent_before_ready Sample.env_up inputs initial); [reflexivity|].
  subst inputs. rewrite !not_elem_of_cons. repeat split; try discriminate.
  apply not_elem_of_nil.
Defined.

Lemma interactive_message_without_id_fails_example :
  graph_api MoreSample.env_graph_up (length (network Sample.connected))
  = Normal MoreSample.graph_answer
  ∧ get_prop MoreSample.graph_answer "id" = Normal JUndefined
  ∧ fst (sendMessage Sample.user MoreSample.menu "list" MoreSample.env_graph_up
           Sample.connected) = Throw TypeError.
Proof.
  split; [reflexivity|]. split; [reflexivity|].
  apply (interactive_message_without_id_fails Sample.user MoreSample.menu "list"
           MoreSample.graph_answer MoreSample.env_graph_up Sample.connected);
    reflexivity.
Defined.

Lemma send_route_always_answers_example :
  isReady Sample.disconnected = false
  ∧ send_route MoreSample.text_to_user Sample.env_up Sample.disconnected
    = (Normal (JsonError 500 not_ready), Sample.disconnected).
Proof.
  split; [reflexivity|].
  destruct (send_route_always_answers MoreSample.text_to_user Sample.env_up
              Sample.disconnected) as (reply & w' & -> & _ & _ & _ & _ & Hnr).
  destruct (Hnr eq_refl) as [-> ->]. reflexivity.
Defined.

Lemma conversation_ids_differ_with_the_clock_example :
  clock Sample.env_up (clock_reads initial)
  ≠ clock Sample.env_up (clock_reads (tick_clock initial))
  ∧ fst (generateConversationId Sample.env_up initial)
    ≠ fst (generateConversationId Sample.env_up (tick_clock initial)).
Proof.
  split; [vm_compute; discriminate|].
  apply (conversation_ids_differ_with_the_clock Sample.env_up initial
           (tick_clock initial)).
  vm_compute. discriminate.
Defined.

(** The sample menu goes out although the client is not connected. *)
Example product_menu_while_disconnected :
  network (snd (sendProductMenu "8888-7777"
                  (JArr [JObj [("id", JStr "7"); ("name", JStr "Ropa")]])
                  MoreSample.env_graph_up Sample.disconnected))
  = [GraphPost "8888-7777" "list"
       (product_menu [JObj [("id", JStr "cat_7"); ("title", JStr "Ropa");
                            ("description", JUndefined)]])].
Proof. reflexivity. Qed.

Lemma delivery_touches_only_its_senders_example :
  ("50670001111" ∉ [from Sample.hola; from Sample.voice_note])
  ∧ sessions (snd (post_webhook MoreSample.signed Sample.env_up Sample.two_sessions))
      !! "50670001111"
    = sessions Sample.two_sessions !! "50670001111".
Proof.
  assert (Hnot : "50670001111" ∉ [from Sample.hola; from Sample.voice_note])
    by (rewrite !not_elem_of_cons; repeat split;
        try (intros Heq; vm_compute in Heq; discriminate); apply not_elem_of_nil).
  split; [exact Hnot|].
  apply (delivery_touches_only_its_senders MoreSample.signed
           [ {| changes :=
                  Some [ {| value :=
                              Some {| messages :=
                                        Some [Some Sample.hola; Some Sample.voice_note]
                                   |} |} ] |} ]
           Sample.env_up Sample.two_sessions "50670001111");
    [reflexivity|reflexivity|exact Hnot].
Defined.

Lemma later_sweep_subsumes_earlier_example :
  let w1 := snd (cleanupSessions Sample.env_up Sample.two_sessions) in
  clock Sample.env_up (clock_reads Sample.two_sessions)
  <= clock Sample.env_up (clock_reads w1)
  ∧ sessions (snd (cleanupSessions Sample.env_up w1)) !! "50670001111"
    = match sessions Sample.two_sessions !! "50670001111" with
      | Some session =>
          if clock Sample.env_up (clock_reads w1) - last_activity session >? maxAge
          then None else Some session
      | None => None
      end.
Proof.
  intros w1. split; [vm_compute; discriminate|].
  apply (later_sweep_subsumes_earlier Sample.env_up Sample.two_sessions).
  vm_compute. discriminate.
Defined.

End MoreExamples.

(** ** The normaliser on any payload *)

Section Payloads.

Context `{Runtime}.

(** Where the conversion of the engine gives a string, it is the string
    of [ToString]; where it throws, it throws a [TypeError]. *)
Lemma ToString_or_throw_sound v :
  match ToString_or_throw Number_toString v with
  | Normal s => s = ToString Number_toString v
  | Throw e => e = TypeError
  end.
Proof.
  revert v. fix IH 1. intros [| |[]|f|s|elements|fields]; try reflexivity.
  - cbn [ToString_or_throw ToString].
    set (each := fix each (xs : list JSValue) : Completion (list string) := _).
    assert (Heach : match each elements with
                    | Normal parts =>
                        parts = List.map (fun x => match x with
                                                   | JUndefined | JNull => ""
                                                   | _ => ToString Number_toString x
                                                   end) elements
                    | Throw e => e = TypeError
                    end).
    { induction elements as [|x rest IHrest]; [reflexivity|].
      cbn [each List.map]. fold each.
      pose proof (IH x) as Hx.
      destruct x; try (destruct (each rest); [rewrite IHrest|]; done).
      all: destruct (ToString_or_throw _ _); [|exact Hx];
        destruct (each rest); [rewrite IHrest, Hx|]; done. }
    destruct (each elements) as [parts|e]; [rewrite Heach; reflexivity|exact Heach].
  - cbn [ToString_or_throw ToString]. destruct (assoc "toString" fields); reflexivity.
Qed.

Lemma convertible_true v :
  convertible v = true →
  ToString_or_throw Number_toString v = Normal (ToString Number_toString v).
Proof.
  unfold convertible. pose proof (ToString_or_throw_sound v) as Hv.
  destruct (ToString_or_throw Number_toString v); [congruence|discriminate].
Qed.

Lemma convertible_false v :
  convertible v = false → ToString_or_throw Number_toString v = Throw TypeError.
Proof.
  unfold convertible. pose proof (ToString_or_throw_sound v) as Hv.
  destruct (ToString_or_throw Number_toString v); [discriminate|congruence].
Qed.

(** The normaliser on a payload that is neither [null] nor [undefined],
    by the fields it reads. *)
Lemma extractMessageContent_run_fields message :
  nullish message = false →
  let type := prop message "type" in
  let template before v :=
    and_then (ToString_or_throw Number_toString v)
      (fun shown => Normal (JStr (before ++ shown ++ "]"))) in
  extractMessageContent_run message
  = if is_string type "text" then Normal (prop message "body")
    else if is_string type "image" then
      template "[Imagen: " (js_or (prop message "caption") (JStr "Sin descripciÃ³n"))
    else if is_string type "video" then
      template "[Video: " (js_or (prop message "caption") (JStr "Sin descripciÃ³n"))
    else if is_string type "audio" then Normal (JStr "[Audio]")
    else if is_string type "document" then
      template "[Documento: " (js_or (prop message "body") (JStr "Sin nombre"))
    else if is_string type "location" then
      and_then (ToString_or_throw Number_toString (prop message "lat")) (fun shown_lat =>
      and_then (ToString_or_throw Number_toString (prop message "lng")) (fun shown_lng =>
      Normal (JStr ("[UbicaciÃ³n: " ++ shown_lat ++ ", " ++ shown_lng ++ "]"))))
    else Normal (JStr "[Mensaje no soportado]").
Proof.
  intros Hn type template. unfold extractMessageContent_run.
  rewrite !(get_prop_by_nullish message), Hn. cbn [and_then]. fold type.
  repeat match goal with
         | |- (if ?b then _ else _) = (if ?b then _ else _) => destruct b; [reflexivity|]
         end.
  reflexivity.
Qed.

Lemma is_string_spec v name : is_string v name = true ↔ v = JStr name.
Proof.
  destruct v; simpl; try (split; [discriminate|congruence]).
  rewrite String.eqb_eq. split; congruence.
Qed.

Lemma is_string_other v name : v ≠ JStr name → is_string v name = false.
Proof.
  intros Hne. destruct (is_string v name) eqn:Hv; [|reflexivity].
  apply is_string_spec in Hv. contradiction.
Qed.

(** The type of a payload is one of the six documented ones, or none. *)
Lemma type_cases (type : JSValue) :
  type = JStr "text" ∨ type = JStr "image" ∨ type = JStr "video" ∨ type = JStr "audio"
  ∨ type = JStr "document" ∨ type = JStr "location"
  ∨ (∀ t, t ∈ documented_types → type ≠ JStr t).
Proof.
  destruct type as [| | | |t| |];
    try (repeat right; intros t' _; discriminate).
  destruct (decide (t ∈ documented_types)) as [Hin|Hout].
  - unfold documented_types in Hin. rewrite !elem_of_cons, elem_of_nil in Hin.
    destruct Hin as [->|[->|[->|[->|[->|[->|[]]]]]]]; auto 10.
  - repeat right. intros t' Hin [= <-]. contradiction.
Qed.

(** On a message of the record, handed over as an object, the normaliser
    gives what [extractMessageContent] gives, where it gives anything. *)
Lemma extractMessageContent_run_agrees m content :
  extractMessageContent_run (message_object m) = Normal content →
  content = extractMessageContent m.
Proof.
  rewrite (extractMessageContent_run_fields (message_object m) eq_refl). cbv zeta.
  change (prop (message_object m) "type") with (type m).
  change (prop (message_object m) "body") with (body m).
  change (prop (message_object m) "caption") with (caption m).
  change (prop (message_object m) "lat") with (lat m).
  change (prop (message_object m) "lng") with (lng m).
  unfold extractMessageContent.
  change (type_is m) with (is_string (type m)).
  repeat match goal with
         | |- context [is_string ?t ?n] => destruct (is_string t n)
         end.
  all: repeat match goal with
              | |- context [ToString_or_throw Number_toString ?v] =>
                  let Hv := fresh "Hv" in
                  pose proof (ToString_or_throw_sound v) as Hv;
                  destruct (ToString_or_throw Number_toString v);
                  [rewrite <- Hv; clear Hv|]; cbn [and_then]
              end.
  all: intros Heq; first [discriminate Heq|injection Heq as <-; reflexivity].
Qed.

(** C9, as the code has it: the normaliser gives a body and nothing else,
    and it is not total. It throws a [TypeError], and nothing but a
    [TypeError], exactly on a payload that is [null] or [undefined] and on
    one of a type whose template holds a value without a string form (the
    caption of an image or a video, the body of a document, the latitude
    or longitude of a location). On every other payload it returns: the
    body as it is for a text, [[Audio]] for an audio, the bracketed
    placeholder of its type for the other documented types, the fixed
    [[Mensaje no soportado]] for any other type or none; everything but
    the body of a text is a string. On a message of the record it is
    [extractMessageContent]. *)
Theorem extractMessageContent_run_defined (message : JSValue) :
  let type := prop message "type" in
  let shown v := ToString Number_toString v in
  (extractMessageContent_run message = Throw TypeError
   ↔ nullish message = true ∨ Exists (λ v, convertible v = false) (rendered message))
  ∧ (∀ e, extractMessageContent_run message = Throw e → e = TypeError)
  ∧ (nullish message = false →
     Forall (λ v, convertible v = true) (rendered message) →
     ∃ content,
       extractMessageContent_run message = Normal content
       ∧ (type = JStr "text" → content = prop message "body")
       ∧ (type = JStr "image" →
          content = JStr ("[Imagen: "
                          ++ shown (js_or (prop message "caption") (JStr "Sin descripciÃ³n"))
                          ++ "]"))
       ∧ (type = JStr "video" →
          content = JStr ("[Video: "
                          ++ shown (js_or (prop message "caption") (JStr "Sin descripciÃ³n"))
                          ++ "]"))
       ∧ (type = JStr "audio" → content = JStr "[Audio]")
       ∧ (type = JStr "document" →
          content = JStr ("[Documento: "
                          ++ shown (js_or (prop message "body") (JStr "Sin nombre"))
                          ++ "]"))
       ∧ (type = JStr "location" →
          content = JStr ("[UbicaciÃ³n: " ++ shown (prop message "lat") ++ ", "
                          ++ shown (prop message "lng") ++ "]"))
       ∧ ((∀ t, t ∈ documented_types → type ≠ JStr t) →
          content = JStr "[Mensaje no soportado]")
       ∧ (type ≠ JStr "text" → ∃ s, content = JStr s))
  ∧ (∀ m content,
       message = message_object m →
       extractMessageContent_run message = Normal content →
       content = extractMessageContent m).
Proof.
  intros type shown.
  match goal with
  | |- ?throws ∧ ?only ∧ ?returns ∧ _ => cut (throws ∧ only ∧ returns)
  end.
  { intros (Hthrows & Honly & Hreturns). split; [exact Hthrows|].
    split; [exact Honly|]. split; [exact Hreturns|].
    intros m content ->. apply extractMessageContent_run_agrees. }
  destruct (nullish message) eqn:Hn.
  { assert (Hrun : extractMessageContent_run message = Throw TypeError)
      by (unfold extractMessageContent_run; rewrite get_prop_by_nullish, Hn; reflexivity).
    rewrite Hrun. split; [split; auto|]. split; [congruence|discriminate]. }
  rewrite (extractMessageContent_run_fields message Hn). unfold rendered.
  fold type. cbv zeta.
  generalize (prop message "body") (prop message "caption")
             (prop message "lat") (prop message "lng").
  intros body caption lat lng.
  destruct (type_cases type) as [Ht|[Ht|[Ht|[Ht|[Ht|[Ht|Ht]]]]]].
  1-6: rewrite Ht; cbn [is_string String.eqb Ascii.eqb Bool.eqb orb].
  7: rewrite !is_string_other by (apply Ht; unfold documented_types; repeat constructor); cbn [orb].
  all: repeat match goal with
              | |- context [ToString_or_throw Number_toString ?v] =>
                  let Hv := fresh "Hv" in
                  destruct (convertible v) eqn:Hv;
                  [rewrite (convertible_true v Hv)|rewrite (convertible_false v Hv)];
                  cbn [and_then]
              end.
  all: rewrite ?Exists_cons, ?Forall_cons, ?Exists_nil.
  all: split; [split; [intros Heq; first [discriminate Heq|auto]
                      |intros [Hf|Hex]; first [discriminate Hf|reflexivity
                                              |exfalso; intuition congruence]]|].
  all: split; [intros e Heq; first [discriminate Heq|congruence]|].
  all: intros _ Hall; try (exfalso; intuition congruence).
  all: eexists; split; [reflexivity|].
  all: repeat split; intros Hty; try discriminate Hty; try reflexivity;
    try (exfalso; first [apply Hty; reflexivity
                        |eapply Hty; [|reflexivity]; unfold documented_types; repeat constructor
                        |eapply Ht; [|exact Hty]; unfold documented_types; repeat constructor]);
    eauto.
Qed.


End Payloads.

(** ** The normaliser at concrete payloads *)

Section PayloadExamples.

#[local] Existing Instance Sample.runtime.

(** C9 fails as stated: the normaliser throws on [null] and [undefined],
    and on an image whose caption has no string form. *)
Lemma extractMessageContent_is_not_total :
  extractMessageContent_run JNull = Throw TypeError
  ∧ extractMessageContent_run JUndefined = Throw TypeError
  ∧ extractMessageContent_run MoreSample.odd_caption = Throw TypeError
  ∧ ¬ (∀ payload, is_normal (extractMessageContent_run payload) = true).
Proof.
  split; [reflexivity|]. split; [reflexivity|]. split; [reflexivity|].
  intros Htotal. specialize (Htotal MoreSample.odd_caption). discriminate Htotal.
Qed.

Lemma extractMessageContent_run_defined_example :
  nullish MoreSample.position = false
  ∧ Forall (λ v, convertible v = true) (rendered MoreSample.position)
  ∧ extractMessageContent_run MoreSample.position
    = Normal (JStr "[UbicaciÃ³n: 9.93, -84.08]").
Proof.
  assert (Hall : Forall (λ v, convertible v = true) (rendered MoreSample.position))
    by (repeat constructor).
  split; [reflexivity|]. split; [exact Hall|].
  destruct (extractMessageContent_run_defined MoreSample.position)
    as (_ & _ & Hreturns & _).
  destruct (Hreturns eq_refl Hall) as (content & -> & _ & _ & _ & _ & _ & Hlocation & _).
  rewrite (Hlocation eq_refl). reflexivity.
Defined.

(** The sample voice note, handed over as an object. *)
Example voice_note_as_an_object :
  extractMessageContent_run (message_object Sample.voice_note) = Normal (JStr "[Audio]").
Proof. reflexivity. Qed.

End PayloadExamples.

(** ** Turns that overlap: properties *)

Section OverlapProperties.

Context `{Runtime}.

Ltac run_monad :=
  unfold try_catch, bind, ret, throw, lift, logger_info, logger_error, logger_warn,
    get_isReady, sessions_get, sessions_set, sessions_delete, client_sendMessage,
    axios_post_agent, axios_post_graph, new_Date, Math_random_toString36 in *;
  simpl in *.

(** [sendMessage] of a text is its two halves, the answer of the client
    being that to the call the first half made. *)
Lemma sendMessage_in_two_halves phone message env w :
  sendMessage phone message "text" env w
  = match sendMessage_begins phone message env w with
    | (Normal call, w') => sendMessage_ends (whatsapp_client env call) env w'
    | (Throw e, w') => (Throw e, w')
    end.
Proof.
  unfold sendMessage, sendMessage_begins, sendMessage_ends, request_client.
  run_monad. destruct (isReady w); simpl; [|reflexivity].
  destruct (whatsapp_client env (length (network w))) as [result|e]; simpl; [|reflexivity].
  destruct (get_prop result "id") as [id|e]; simpl; [|reflexivity].
  destruct (get_prop id "_serialized"); reflexivity.
Qed.

Lemma turn_runs_resumes n frame env w :
  turn_runs (S n) (Some frame) env w
  = match turn_resumes frame env w with
    | (Normal next, w') => turn_runs n next env w'
    | (Throw e, w') => (Throw e, w')
    end.
Proof. reflexivity. Qed.

Lemma turn_runs_ended n env w : turn_runs n None env w = (Normal tt, w).
Proof. destruct n; reflexivity. Qed.

Opaque turn_runs.

Ltac settle_next :=
  match goal with
  | |- context [ai_agent ?env ?n] => destruct (ai_agent env n) eqn:?
  | |- context [whatsapp_client ?env ?n] => destruct (whatsapp_client env n) eqn:?
  | |- context [match get_prop ?v ?k with _ => _ end] => destruct (get_prop v k) eqn:?
  | |- context [negb (isReady ?w)] => destruct (isReady w) eqn:?
  end.

Ltac resume :=
  rewrite ?turn_runs_resumes, ?turn_runs_ended;
  unfold turn_resumes, apology_begins, send_begins, held, assign_context,
    sendMessage_begins, sendMessage_ends, request_client;
  run_monad; rewrite ?lookup_insert_eq; simpl;
  repeat match goal with
         | Heq : _ = _ |- _ => progress rewrite Heq
         end;
  simpl.

(** The steps of a turn, one right after the other, are the turn. *)
Lemma turn_alone_is_handleIncomingMessage message env w :
  turn_alone message env w = handleIncomingMessage message env w.
Proof.
  unfold turn_alone, turn_begins, handleIncomingMessage, processWithAI,
    generateConversationId, request_agent, sendMessage.
  run_monad.
  destruct (sessions w !! from message) as [s0|] eqn:Hs0; simpl.
  all: repeat (resume; try settle_next).
  all: reflexivity.
Qed.

Transparent turn_runs.

(** The last step of a turn whose reply went out with the fallback object
    of [processWithAI]: the turn assigns the context it took when the call
    to the AI agent failed, whatever the session holds by then. *)
Lemma fallback_context_is_assigned message session captured result env w current :
  sessions w !! from message = Some current →
  truthy captured = true →
  turn_resumes
    (AwaitSent message session
       (JObj [("response", JStr fallback_text); ("context", captured)]) (Normal result))
    env w
  = (Normal None,
     set_sessions (<[from message := with_context captured current]> (sessions w)) w).
Proof.
  intros Hcurrent Htruthy.
  unfold turn_resumes, held, assign_context. run_monad.
  rewrite Hcurrent. unfold js_or. rewrite Htruthy. reflexivity.
Qed.

End OverlapProperties.

(** ** Turns that overlap: a failed turn and a newer context *)

Section OverlapExamples.

#[local] Existing Instance Sample.runtime.

(** C2, at two overlapping turns of one user: the call of the first turn
    to the AI agent fails by its timeout, after the second turn got its
    answer and before the second turn has stored the context it was
    returned. The failed turn takes the context of that moment into its
    fallback object; the second turn then stores the newer context; and
    the failed turn, at its last step, assigns the older one again. The
    failed turn has sent the fallback text and has changed the session:
    the context the second turn stored is lost, which it is in neither
    order of the two turns run one after the other. *)
Theorem failed_turn_overwrites_newer_context :
  let env := MoreSample.env_agent_slow_once in
  let start := {| bot_world := Sample.connected; turns := [] |} in
  let fallback :=
    JObj [("response", JStr fallback_text); ("context", Sample.greeting)] in
  let at_last_await := play env (take 9 MoreSample.overlapping) start in
  let finished := play env MoreSample.overlapping start in
  ai_agent env 0 = Throw (Error "timeout of 30000ms exceeded")
  ∧ context_of (bot_world start) Sample.user = Some Sample.greeting
  ∧ (∃ session,
       turns at_last_await
       = [Some (AwaitSent Sample.hola session fallback
                  (Normal (delivered Sample.message_id)));
          None])
  ∧ context_of (bot_world at_last_await) Sample.user = Some Sample.browsing
  ∧ finished = happen env at_last_await (Settles 0)
  ∧ turns finished = [None; None]
  ∧ context_of (bot_world finished) Sample.user = Some Sample.greeting
  ∧ network (bot_world finished)
    = [AgentPost Sample.user (JStr "Hola") "conv_1699999990000_k2j4h5g6f"
         Sample.greeting;
       AgentPost Sample.user (JStr "[Audio]") "conv_1699999990000_k2j4h5g6f"
         Sample.greeting;
       ClientSend "50688887777@c.us" (JStr "Hola!");
       ClientSend "50688887777@c.us" (JStr fallback_text)]
  ∧ context_of (handle_all env [Sample.hola; Sample.voice_note] Sample.connected)
      Sample.user = Some Sample.browsing
  ∧ context_of (handle_all env [Sample.voice_note; Sample.hola] Sample.connected)
      Sample.user = Some Sample.browsing.
Proof.
  cbv zeta. split; [reflexivity|]. split; [reflexivity|].
  split; [eexists; vm_compute; reflexivity|].
  repeat split; vm_compute; reflexivity.
Qed.

(** The sample turn alone, step by step, is the turn. *)
Example turn_alone_example :
  turn_alone Sample.hola Sample.env_agent_down Sample.connected
  = handleIncomingMessage Sample.hola Sample.env_agent_down Sample.connected.
Proof. vm_compute. reflexivity. Qed.

End OverlapExamples.
